(** * hacktivator: PIM role discovery and activation

    A shallow embedding of the Go packages [internal/azure] (eligibility
    aggregation, schedule linking, activation) and [internal/ui] (role
    selection), together with the properties the design document states
    about them.

    Conventions of the embedding:
    - a Go [string] is a [string]; a Go [int] is a [Z];
    - a Go [(T, error)] result is a [result T]; an [error] is its message,
      so [fmt.Errorf("ctx: %w", err)] is the concatenation of the context
      and the wrapped message;
    - everything outside the process (the [az] executable, the clock, the
      UUID generator, the terminal) is reached through an explicit world
      that is threaded through the calls, and a computation returns the
      interactions it had next to its result;
    - the loop of [fetchEligibleRoles] follows continuation links for as
      long as the service hands them out, so it takes fuel and answers
      [None] when the fuel is exhausted. *)

From Stdlib Require Import ZArith Ascii String.
From stdpp Require Import gmap strings list pretty.

Set Warnings "-register-all".
Set Default Proof Using "Type".

(** ** Results and errors *)

Inductive result (A : Type) : Type :=
| Ok (a : A)
| Err (e : string).
Arguments Ok {A} a.
Arguments Err {A} e.

Definition is_Err {A} (r : result A) : bool :=
  match r with Ok _ => false | Err _ => true end.

Definition is_Ok {A} (r : result A) : bool :=
  match r with Ok _ => true | Err _ => false end.

(** ** Strings: the parts of Go's [strings] and [fmt] the code uses *)

Definition nl : string := String (ascii_of_nat 10) EmptyString.

(** [strings.Split(s, sep)] for a separator of one byte. The result is
    never empty: a string without separator is returned whole. *)
Fixpoint strings_Split (s : string) (sep : ascii) : list string :=
  match s with
  | EmptyString => [EmptyString]
  | String c s' =>
      if decide (c = sep) then EmptyString :: strings_Split s' sep
      else match strings_Split s' sep with
           | h :: t => String c h :: t
           | [] => [String c EmptyString]
           end
  end.

(** [strings.HasPrefix(s, prefix)]. *)
Fixpoint strings_HasPrefix (s prefix : string) {struct prefix} : bool :=
  match prefix with
  | EmptyString => true
  | String a prefix' =>
      match s with
      | EmptyString => false
      | String b s' => bool_decide (a = b) && strings_HasPrefix s' prefix'
      end
  end.

(** [strings.Contains(s, substr)]: [substr] starts at some position of
    [s]. *)
Fixpoint strings_Contains (s substr : string) : bool :=
  strings_HasPrefix s substr ||
  match s with
  | EmptyString => false
  | String _ s' => strings_Contains s' substr
  end.

(** [fmt.Sprintf("%d", n)]: the decimal digits of [n], after a minus sign
    when [n] is negative. *)
Definition fmt_d (n : Z) : string := pretty n.

(** ** Data model *)

(** [time.Time], as far as the code can tell two values apart: the zero
    value and what [time.Parse] or [time.Now] hand out. *)
Record Time := mkTime { wall_sec : Z; wall_nsec : Z; zone_offset : Z }.

Definition Time_zero : Time := mkTime 0%Z 0%Z 0%Z.

Module RoleDefinitionInfo.
Record t := mk { ID : string; DisplayName : string; Type_ : string }.
End RoleDefinitionInfo.

Module ScopeInfo.
Record t := mk { ID : string; DisplayName : string; Type_ : string }.
End ScopeInfo.

Module PrincipalInfo.
Record t := mk
  { ID : string; DisplayName : string; Email : string; Type_ : string }.
End PrincipalInfo.

Module ExpandedProperties.
Record t := mk
  { RoleDefinition : RoleDefinitionInfo.t;
    Scope : ScopeInfo.t;
    Principal : PrincipalInfo.t }.
End ExpandedProperties.

Module EligibleRole.
Record t := mk
  { ID : string;
    RoleDefinitionID : string;
    RoleName : string;
    Scope : string;
    ScopeName : string;
    ScopeType : string;
    PrincipalID : string;
    Status : string;
    MemberType : string;
    StartDateTime : Time;
    EndDateTime : option Time;
    MaxDuration : Z;
    EligibilityID : string;
    ExpandedProperties : option ExpandedProperties.t }.

(** Assignments to fields of a role under construction. *)
Definition set_StartDateTime (v : Time) (r : t) : t :=
  mk (ID r) (RoleDefinitionID r) (RoleName r) (Scope r) (ScopeName r)
     (ScopeType r) (PrincipalID r) (Status r) (MemberType r) v
     (EndDateTime r) (MaxDuration r) (EligibilityID r) (ExpandedProperties r).

Definition set_EndDateTime (v : option Time) (r : t) : t :=
  mk (ID r) (RoleDefinitionID r) (RoleName r) (Scope r) (ScopeName r)
     (ScopeType r) (PrincipalID r) (Status r) (MemberType r) (StartDateTime r)
     v (MaxDuration r) (EligibilityID r) (ExpandedProperties r).

(** [role.RoleName = n; role.ScopeName = s; role.ScopeType = ty] *)
Definition set_names (n s ty : string) (r : t) : t :=
  mk (ID r) (RoleDefinitionID r) n (Scope r) s ty (PrincipalID r) (Status r)
     (MemberType r) (StartDateTime r) (EndDateTime r) (MaxDuration r)
     (EligibilityID r) (ExpandedProperties r).
End EligibleRole.

Module ActivationRequest.
Record t := mk
  { Role : EligibleRole.t;
    Duration : Z;
    Justification : string;
    TicketNumber : string;
    TicketSystem : string }.
End ActivationRequest.

(** One element of [roleEligibilityScheduleInstancesResponse.Value]. *)
Module Item.
Record properties := mkProperties
  { RoleDefinitionID : string;
    Scope : string;
    PrincipalID : string;
    Status : string;
    MemberType : string;
    StartDateTime : string;
    EndDateTime : option string;
    ExpandedProperties : option ExpandedProperties.t }.

Record t := mk
  { ID : string; Name : string; Type_ : string; Properties : properties }.
End Item.

Module Response.
Record t := mk { Value : list Item.t; NextLink : string }.
End Response.

Module subscription.
Record t := mk { ID : string; Name : string }.
End subscription.

(** One element of the anonymous response struct of
    [getEligibilityScheduleID]. *)
Module Schedule.
Record t := mk { ID : string; Name : string }.
End Schedule.

(** What [ActivateRole] hands to [json.Marshal]: a
    [map[string]interface{}] whose values are strings, nested maps of the
    same type, or a [map[string]string]. *)
Inductive value :=
| VStr (s : string)
| VStrMap (m : gmap string string)
| VMap (m : gmap string value).

(** The fields of the final [selectorModel] that [SelectRole] reads. *)
Module selectorModel.
Record t := mk { selected : option EligibleRole.t; cancelled : bool }.
End selectorModel.

(** What [cmd.Run()] leaves behind: its error, if any, and the two
    buffers. *)
Record exec_result := mkExec
  { run_err : option string; stdout : string; stderr : string }.

(** ** Interactions with the outside *)

Inductive event :=
| EvAz (args : list string)
| EvStderr (text : string)
| EvStdout (text : string)
| EvChooser (candidates : list EligibleRole.t) (title : string).

Definition is_az (e : event) : option (list string) :=
  match e with EvAz args => Some args | _ => None end.

Definition is_chooser (e : event) : bool :=
  match e with EvChooser _ _ => true | _ => false end.

(** The [az] invocations among the events, in order. *)
Definition az_calls (evs : list event) : list (list string) :=
  omap is_az evs.

(** ** Path helpers *)

Definition extractLastSegment (path : string) : string :=
  let parts := strings_Split path "/" in
  if decide (0 < length parts)%nat then default path (last parts) else path.

(** The loop of [extractScopeName]: [todo] is [parts[i:]], and [Some] is a
    [return] from inside the loop. *)
Fixpoint extractScopeName_loop (parts : list string) (i : nat)
    (todo : list string) : option string :=
  match todo with
  | [] => None
  | part :: todo' =>
      if bool_decide (part = "subscriptions")
         && bool_decide (i + 1 < length parts)%nat
      then parts !! (i + 1)%nat
      else if bool_decide (part = "resourceGroups")
              && bool_decide (i + 1 < length parts)%nat
      then parts !! (i + 1)%nat
      else if bool_decide (part = "managementGroups")
              && bool_decide (i + 1 < length parts)%nat
      then parts !! (i + 1)%nat
      else extractScopeName_loop parts (i + 1) todo'
  end.

Definition extractScopeName (scope : string) : string :=
  let parts := strings_Split scope "/" in
  default scope (extractScopeName_loop parts 0 parts).

Definition detectScopeType (scope : string) : string :=
  if strings_Contains scope "/resourceGroups/" then "resourceGroup"
  else if strings_Contains scope "/managementGroups/" then "managementGroup"
  else if strings_Contains scope "/subscriptions/" then "subscription"
  else "unknown".

(** ** The world outside the process

    The executor behind [exec.Command("az", ...)], the clock, the UUID
    generator and the terminal program change the world they run in; the
    remaining fields are functions of Go's libraries that the code calls
    as they are. *)
Class Env := {
  World : Type;
  exec_az : list string -> World -> exec_result * World;
  uuid_New_String : World -> string * World;
  time_Now : World -> Time * World;
  tea_Run :
    list EligibleRole.t -> string -> World -> result selectorModel.t * World;
  time_UTC : Time -> Time;
  time_Format_RFC3339 : Time -> string;
  time_Parse_RFC3339 : string -> option Time;
  strings_TrimSpace : string -> string;
  SuccessStyle_Render : string -> string;
  json_Marshal : value -> result string;
  json_Unmarshal_subscriptions : string -> result (list subscription.t);
  json_Unmarshal_instances : string -> result Response.t;
  json_Unmarshal_schedules : string -> result (list Schedule.t) }.

(** The state of a run: the world and the package variable [Verbose]. *)
Record state `{Env} := mkState { world : World; Verbose : bool }.
Arguments mkState {_} _ _.

(** A computation maps a state to its result, the state it leaves and the
    interactions it had with the outside, oldest first. *)
Definition M `{Env} (A : Type) : Type := state -> A * state * list event.

Definition ret `{Env} {A} (a : A) : M A := fun st => (a, st, []).

Definition bind `{Env} {A B} (c : M A) (k : A -> M B) : M B :=
  fun st =>
    let '(a, st1, evs1) := c st in
    let '(b, st2, evs2) := k a st1 in
    (b, st2, evs1 ++ evs2).

Definition emit `{Env} (e : event) : M unit := fun st => (tt, st, [e]).

Definition lift_world `{Env} {A} (f : World -> A * World) : M A :=
  fun st => let '(a, w) := f (world st) in (a, mkState w (Verbose st), []).

Declare Scope go_scope.
Delimit Scope go_scope with go.
Notation "x <- c ;; k" := (bind c (fun x => k))
  (at level 100, c at next level, right associativity) : go_scope.
Notation "c ;; k" := (bind c (fun _ => k))
  (at level 100, right associativity) : go_scope.
Local Open Scope go_scope.

Section Program.
Context `{Env}.

(** *** cli.go *)

Definition runAzCommand (args : list string) : M (result string) :=
  emit (EvAz args) ;;
  r <- lift_world (exec_az args) ;;
  match run_err r with
  | Some err =>
      ret (Err ("az command failed: " +:+ err +:+ nl +:+ "stderr: " +:+ stderr r))
  | None => ret (Ok (stdout r))
  end.

Definition GetCurrentUserPrincipalID : M (result string) :=
  r <- runAzCommand
         ["ad"; "signed-in-user"; "show"; "--query"; "id"; "--output"; "tsv"] ;;
  match r with
  | Err err => ret (Err ("failed to get current user principal ID: " +:+ err))
  | Ok output => ret (Ok (strings_TrimSpace output))
  end.

(** [debugf(format, args...)], applied to the formatted text. *)
Definition debugf (text : string) : M unit :=
  fun st =>
    if Verbose st then emit (EvStderr ("[DEBUG] " +:+ text +:+ nl)) st
    else ret tt st.

(** *** Eligibility aggregation *)

Definition getSubscriptions : M (result (list subscription.t)) :=
  r <- runAzCommand
         ["account"; "list"; "--query"; "[].{id:id, name:name}"; "-o"; "json"] ;;
  match r with
  | Err err => ret (Err err)
  | Ok output =>
      match json_Unmarshal_subscriptions output with
      | Err err => ret (Err ("failed to parse subscriptions: " +:+ err))
      | Ok subs => ret (Ok subs)
      end
  end.

(** The body of the loop over [response.Value] in [fetchEligibleRoles]:
    the role built from one item of a page. *)
Definition eligibleRoleOfItem (item : Item.t) : EligibleRole.t :=
  let props := Item.Properties item in
  let role :=
    {| EligibleRole.ID := Item.ID item;
       EligibleRole.EligibilityID := Item.ID item;
       EligibleRole.RoleDefinitionID := Item.RoleDefinitionID props;
       EligibleRole.Scope := Item.Scope props;
       EligibleRole.PrincipalID := Item.PrincipalID props;
       EligibleRole.Status := Item.Status props;
       EligibleRole.MemberType := Item.MemberType props;
       EligibleRole.MaxDuration := 480;
       EligibleRole.ExpandedProperties := Item.ExpandedProperties props;
       EligibleRole.RoleName := "";
       EligibleRole.ScopeName := "";
       EligibleRole.ScopeType := "";
       EligibleRole.StartDateTime := Time_zero;
       EligibleRole.EndDateTime := None |} in
  let role :=
    if bool_decide (Item.StartDateTime props ≠ "") then
      match time_Parse_RFC3339 (Item.StartDateTime props) with
      | Some t => EligibleRole.set_StartDateTime t role
      | None => role
      end
    else role in
  let role :=
    match Item.EndDateTime props with
    | Some e =>
        if bool_decide (e ≠ "") then
          match time_Parse_RFC3339 e with
          | Some t => EligibleRole.set_EndDateTime (Some t) role
          | None => role
          end
        else role
    | None => role
    end in
  match EligibleRole.ExpandedProperties role with
  | Some ep =>
      EligibleRole.set_names
        (RoleDefinitionInfo.DisplayName (ExpandedProperties.RoleDefinition ep))
        (ScopeInfo.DisplayName (ExpandedProperties.Scope ep))
        (ScopeInfo.Type_ (ExpandedProperties.Scope ep))
        role
  | None =>
      EligibleRole.set_names
        (extractLastSegment (EligibleRole.RoleDefinitionID role))
        (extractScopeName (EligibleRole.Scope role))
        (detectScopeType (EligibleRole.Scope role))
        role
  end.

(** [for _, item := range response.Value { ...; allRoles = append(allRoles, role) }] *)
Definition appendPage (allRoles : list EligibleRole.t) (page : list Item.t)
  : list EligibleRole.t :=
  foldl (fun acc item => acc ++ [eligibleRoleOfItem item]) allRoles page.

(** The loop [for url != ""] of [fetchEligibleRoles]; [None] when the
    fuel does not reach the end of the chain of continuation links. *)
Fixpoint fetchEligibleRoles_loop (fuel : nat) (url : string)
    (allRoles : list EligibleRole.t)
  : M (option (result (list EligibleRole.t))) :=
  if bool_decide (url ≠ "") then
    match fuel with
    | O => ret None
    | S fuel' =>
        r <- runAzCommand ["rest"; "--method"; "GET"; "--url"; url] ;;
        match r with
        | Err err => ret (Some (Err err))
        | Ok output =>
            match json_Unmarshal_instances output with
            | Err err => ret (Some (Err ("failed to parse response: " +:+ err)))
            | Ok response =>
                fetchEligibleRoles_loop fuel' (Response.NextLink response)
                  (appendPage allRoles (Response.Value response))
            end
        end
    end
  else ret (Some (Ok allRoles)).

Definition fetchEligibleRoles (fuel : nat) (url : string)
  : M (option (result (list EligibleRole.t))) :=
  fetchEligibleRoles_loop fuel url [].

Definition eligibilityInstancesQuery : string :=
  "/providers/Microsoft.Authorization/roleEligibilityScheduleInstances?api-version=2020-10-01&$filter=asTarget()&$expand=roleDefinition,principal".

Definition getEligibleRolesAtScope (fuel : nat) (scope : string)
  : M (option (result (list EligibleRole.t))) :=
  let url :=
    if bool_decide (scope = "") then
      "https://management.azure.com" +:+ eligibilityInstancesQuery
    else
      "https://management.azure.com" +:+ scope +:+ eligibilityInstancesQuery in
  fetchEligibleRoles fuel url.

(** The loop over [subscriptions] in [GetEligibleRoleAssignments]. *)
Fixpoint subscriptions_loop (fuel : nat) (subscriptions : list subscription.t)
    (allRoles : list EligibleRole.t) : M (option (list EligibleRole.t)) :=
  match subscriptions with
  | [] => ret (Some allRoles)
  | sub :: subscriptions' =>
      let scope := "/subscriptions/" +:+ subscription.ID sub in
      o <- getEligibleRolesAtScope fuel scope ;;
      match o with
      | None => ret None
      | Some (Err _) => subscriptions_loop fuel subscriptions' allRoles
      | Some (Ok roles) =>
          subscriptions_loop fuel subscriptions' (allRoles ++ roles)
      end
  end.

(** One turn of the deduplication loop: [seen] is the Go map, in which a
    missing key reads as [false]. *)
Definition dedup_step (acc : gmap string bool * list EligibleRole.t)
    (role : EligibleRole.t) : gmap string bool * list EligibleRole.t :=
  let '(seen, uniqueRoles) := acc in
  if negb (default false (seen !! EligibleRole.ID role)) then
    (<[EligibleRole.ID role := true]> seen, uniqueRoles ++ [role])
  else acc.

Definition deduplicate (allRoles : list EligibleRole.t) : list EligibleRole.t :=
  (foldl dedup_step (∅, []) allRoles).2.

Definition GetEligibleRoleAssignments (fuel : nat)
  : M (option (result (list EligibleRole.t))) :=
  let allRoles : list EligibleRole.t := [] in
  r <- getSubscriptions ;;
  match r with
  | Err err => ret (Some (Err ("failed to get subscriptions: " +:+ err)))
  | Ok subscriptions =>
      o <- getEligibleRolesAtScope fuel "" ;;
      match o with
      | None => ret None
      | Some r0 =>
          let allRoles :=
            match r0 with
            | Ok roles => allRoles ++ roles
            | Err _ => allRoles
            end in
          o <- subscriptions_loop fuel subscriptions allRoles ;;
          match o with
          | None => ret None
          | Some allRoles => ret (Some (Ok (deduplicate allRoles)))
          end
      end
  end.

(** *** Schedule linking and activation *)

Definition eligibilitySchedulesURL (scope roleDefinitionID principalID : string)
  : string :=
  "https://management.azure.com" +:+ scope
  +:+ "/providers/Microsoft.Authorization/roleEligibilitySchedules?api-version=2020-10-01&$filter=principalId eq '"
  +:+ principalID +:+ "' and roleDefinitionId eq '" +:+ roleDefinitionID +:+ "'".

Definition getEligibilityScheduleID (scope roleDefinitionID principalID : string)
  : M (result string) :=
  let url := eligibilitySchedulesURL scope roleDefinitionID principalID in
  debugf ("Querying eligibility schedules: " +:+ url) ;;
  r <- runAzCommand ["rest"; "--method"; "GET"; "--url"; url] ;;
  match r with
  | Err err => ret (Err ("failed to query eligibility schedules: " +:+ err))
  | Ok output =>
      match json_Unmarshal_schedules output with
      | Err err => ret (Err ("failed to parse eligibility schedules: " +:+ err))
      | Ok response_Value =>
          match response_Value with
          | [] => ret (Err "no eligibility schedule found")
          | first :: _ =>
              debugf ("Found eligibility schedule: " +:+ Schedule.ID first
                      +:+ " (name: " +:+ Schedule.Name first +:+ ")") ;;
              ret (Ok (Schedule.Name first))
          end
      end
  end.

(** The step [// Get the eligibility schedule by querying for it] of
    [ActivateRole]: the query, and the fallback on any error of it. *)
Definition ActivateRole_linkedScheduleID (role : EligibleRole.t) : M string :=
  r <- getEligibilityScheduleID (EligibleRole.Scope role)
         (EligibleRole.RoleDefinitionID role) (EligibleRole.PrincipalID role) ;;
  match r with
  | Err err =>
      debugf ("Could not find eligibility schedule, using instance ID as fallback: "
              +:+ err) ;;
      ret (extractLastSegment (EligibleRole.ID role))
  | Ok eligibilityScheduleID => ret eligibilityScheduleID
  end.

(** The map literal [requestBody] of [ActivateRole]; [now] is what
    [time.Now()] returned while the literal was evaluated. *)
Definition requestBody_literal (req : ActivationRequest.t)
    (currentUserPrincipalID eligibilityScheduleID : string) (now : Time)
  : gmap string value :=
  {[ "properties" := VMap
       {[ "principalId" := VStr currentUserPrincipalID;
          "roleDefinitionId" :=
            VStr (EligibleRole.RoleDefinitionID (ActivationRequest.Role req));
          "requestType" := VStr "SelfActivate";
          "linkedRoleEligibilityScheduleId" := VStr eligibilityScheduleID;
          "justification" := VStr (ActivationRequest.Justification req);
          "scheduleInfo" := VMap
            {[ "startDateTime" := VStr (time_Format_RFC3339 (time_UTC now));
               "expiration" := VMap
                 {[ "type" := VStr "AfterDuration";
                    "duration" :=
                      VStr ("PT" +:+ fmt_d (ActivationRequest.Duration req)
                            +:+ "M") ]} ]} ]} ]}.

(** The block [// Add ticket info if provided]: the nested map under
    ["properties"] is updated in place. *)
Definition add_ticketInfo (req : ActivationRequest.t)
    (requestBody : gmap string value) : gmap string value :=
  if bool_decide (ActivationRequest.TicketNumber req ≠ "")
     || bool_decide (ActivationRequest.TicketSystem req ≠ "") then
    let ticketInfo : gmap string string := ∅ in
    let ticketInfo :=
      if bool_decide (ActivationRequest.TicketNumber req ≠ "") then
        <["ticketNumber" := ActivationRequest.TicketNumber req]> ticketInfo
      else ticketInfo in
    let ticketInfo :=
      if bool_decide (ActivationRequest.TicketSystem req ≠ "") then
        <["ticketSystem" := ActivationRequest.TicketSystem req]> ticketInfo
      else ticketInfo in
    match requestBody !! "properties" with
    | Some (VMap properties) =>
        <["properties" := VMap (<["ticketInfo" := VStrMap ticketInfo]> properties)]>
          requestBody
    | _ => requestBody
    end
  else requestBody.

Definition activationURL (scope requestID : string) : string :=
  "https://management.azure.com" +:+ scope
  +:+ "/providers/Microsoft.Authorization/roleAssignmentScheduleRequests/"
  +:+ requestID +:+ "?api-version=2020-10-01".

Definition ActivateRole (req : ActivationRequest.t) : M (result unit) :=
  let role := ActivationRequest.Role req in
  requestID <- lift_world uuid_New_String ;;
  r <- GetCurrentUserPrincipalID ;;
  match r with
  | Err err => ret (Err ("failed to get current user principal ID: " +:+ err))
  | Ok currentUserPrincipalID =>
      debugf ("Role ID: " +:+ EligibleRole.ID role) ;;
      debugf ("Role Definition ID: " +:+ EligibleRole.RoleDefinitionID role) ;;
      debugf ("Scope: " +:+ EligibleRole.Scope role) ;;
      debugf ("Eligibility Principal ID: " +:+ EligibleRole.PrincipalID role) ;;
      debugf ("Current User Principal ID: " +:+ currentUserPrincipalID) ;;
      eligibilityScheduleID <- ActivateRole_linkedScheduleID role ;;
      debugf ("Using eligibility schedule ID: " +:+ eligibilityScheduleID) ;;
      now <- lift_world time_Now ;;
      let requestBody :=
        requestBody_literal req currentUserPrincipalID eligibilityScheduleID now in
      let requestBody := add_ticketInfo req requestBody in
      match json_Marshal (VMap requestBody) with
      | Err err => ret (Err ("failed to marshal request body: " +:+ err))
      | Ok bodyJSON =>
          debugf ("Request body: " +:+ bodyJSON) ;;
          let url := activationURL (EligibleRole.Scope role) requestID in
          debugf ("Request URL: " +:+ url) ;;
          r <- runAzCommand
                 ["rest"; "--method"; "PUT"; "--url"; url; "--body"; bodyJSON] ;;
          match r with
          | Err err => ret (Err ("activation request failed: " +:+ err))
          | Ok output =>
              debugf ("Response: " +:+ output) ;;
              ret (Ok tt)
          end
      end
  end.

(** *** Active assignments *)

(** The body of the loop of [GetActiveRoleAssignments]. *)
Definition activeRoleOfItem (item : Item.t) : EligibleRole.t :=
  let props := Item.Properties item in
  let role :=
    {| EligibleRole.ID := Item.ID item;
       EligibleRole.RoleDefinitionID := Item.RoleDefinitionID props;
       EligibleRole.Scope := Item.Scope props;
       EligibleRole.PrincipalID := Item.PrincipalID props;
       EligibleRole.Status := Item.Status props;
       EligibleRole.MemberType := Item.MemberType props;
       EligibleRole.ExpandedProperties := Item.ExpandedProperties props;
       EligibleRole.RoleName := "";
       EligibleRole.ScopeName := "";
       EligibleRole.ScopeType := "";
       EligibleRole.StartDateTime := Time_zero;
       EligibleRole.EndDateTime := None;
       EligibleRole.MaxDuration := 0;
       EligibleRole.EligibilityID := "" |} in
  match EligibleRole.ExpandedProperties role with
  | Some ep =>
      EligibleRole.set_names
        (RoleDefinitionInfo.DisplayName (ExpandedProperties.RoleDefinition ep))
        (ScopeInfo.DisplayName (ExpandedProperties.Scope ep))
        (ScopeInfo.Type_ (ExpandedProperties.Scope ep))
        role
  | None => role
  end.

Definition activeAssignmentsURL : string :=
  "https://management.azure.com/providers/Microsoft.Authorization/roleAssignmentScheduleInstances?api-version=2020-10-01&$filter=asTarget()&$expand=roleDefinition,principal".

Definition GetActiveRoleAssignments : M (result (list EligibleRole.t)) :=
  r <- runAzCommand ["rest"; "--method"; "GET"; "--url"; activeAssignmentsURL] ;;
  match r with
  | Err err => ret (Err err)
  | Ok output =>
      match json_Unmarshal_instances output with
      | Err err => ret (Err ("failed to parse response: " +:+ err))
      | Ok response =>
          ret (Ok (foldl (fun roles item => roles ++ [activeRoleOfItem item])
                     [] (Response.Value response)))
      end
  end.

(** *** Role selection (package [ui]) *)

(** [len(roles) == 0] and [len(roles) == 1] are the first two patterns;
    the pointer [&roles[0]] is the role it points to. *)
Definition SelectRole (roles : list EligibleRole.t) (nonInteractive : bool)
  : M (result EligibleRole.t) :=
  match roles with
  | [] => ret (Err "no eligible roles available")
  | [role0] =>
      emit (EvStdout
              (SuccessStyle_Render
                 ("Auto-selecting the only eligible role: "
                  +:+ EligibleRole.RoleName role0 +:+ " on "
                  +:+ EligibleRole.ScopeName role0) +:+ nl)) ;;
      ret (Ok role0)
  | _ :: _ :: _ =>
      if nonInteractive then
        ret (Err "multiple roles available but running in non-interactive mode")
      else
        emit (EvChooser roles "Select role to activate") ;;
        r <- lift_world (tea_Run roles "Select role to activate") ;;
        match r with
        | Err err => ret (Err ("selector failed: " +:+ err))
        | Ok result =>
            if selectorModel.cancelled result then
              ret (Err "selection cancelled")
            else
              match selectorModel.selected result with
              | None => ret (Err "no role selected")
              | Some role => ret (Ok role)
              end
        end
  end.

End Program.

(** ** Observations on a run *)

(** A field of the ["properties"] object of a request body. *)
Definition property (k : string) (requestBody : gmap string value)
  : option value :=
  match requestBody !! "properties" with
  | Some (VMap properties) => properties !! k
  | _ => None
  end.

Definition whoami_args : list string :=
  ["ad"; "signed-in-user"; "show"; "--query"; "id"; "--output"; "tsv"].

Definition GET_args (url : string) : list string :=
  ["rest"; "--method"; "GET"; "--url"; url].

Definition PUT_args (url body : string) : list string :=
  ["rest"; "--method"; "PUT"; "--url"; url; "--body"; body].

(** The body [ActivateRole] marshals, from the values it has resolved. *)
Definition activationBody `{Env} (req : ActivationRequest.t)
    (currentUserPrincipalID eligibilityScheduleID : string) (now : Time)
  : gmap string value :=
  add_ticketInfo req
    (requestBody_literal req currentUserPrincipalID eligibilityScheduleID now).

(** [sub] occurs in [s]. *)
Definition occurs_in (sub s : string) : Prop :=
  exists a b, s = a +:+ sub +:+ b.

(** The path segments [extractScopeName] looks for. *)
Definition scope_keywords : list string :=
  ["subscriptions"; "resourceGroups"; "managementGroups"].

(** A field of the ["scheduleInfo"] object, and of its ["expiration"]. *)
Definition scheduleInfo_field (k : string) (requestBody : gmap string value)
  : option value :=
  match property "scheduleInfo" requestBody with
  | Some (VMap scheduleInfo) => scheduleInfo !! k
  | _ => None
  end.

Definition expiration_field (k : string) (requestBody : gmap string value)
  : option value :=
  match scheduleInfo_field "expiration" requestBody with
  | Some (VMap expiration) => expiration !! k
  | _ => None
  end.

(** The interactive chooser runs of a list of events. *)
Definition chooser_runs (evs : list event) : list event :=
  filter (fun e => is_chooser e = true) evs.

(** *** Specification of the aggregator *)

(** The scope strings [GetEligibleRoleAssignments] queries, in the order
    it queries them. *)
Definition scopes_of (subscriptions : list subscription.t) : list string :=
  "" :: map (fun sub => "/subscriptions/" +:+ subscription.ID sub) subscriptions.

(** One eligibility query per scope, one after the other, each outcome
    kept. *)
Fixpoint scopeQueries `{Env} (fuel : nat) (scopes : list string)
  : M (option (list (result (list EligibleRole.t)))) :=
  match scopes with
  | [] => ret (Some [])
  | scope :: scopes' =>
      o <- getEligibleRolesAtScope fuel scope ;;
      match o with
      | None => ret None
      | Some r =>
          os <- scopeQueries fuel scopes' ;;
          match os with
          | None => ret None
          | Some rs => ret (Some (r :: rs))
          end
      end
  end.

(** The rows of the queries that succeeded, in query order. *)
Definition succeeded_rows (rs : list (result (list EligibleRole.t)))
  : list EligibleRole.t :=
  concat (map (fun r => match r with Ok rows => rows | Err _ => [] end) rs).

(** A chain of pages: starting at [url], each request succeeds and
    parses, and the continuation link of the last page is empty. *)
Inductive pages_from `{Env}
  : string -> state -> list Response.t -> state -> list event -> Prop :=
| pages_end st : pages_from "" st [] st []
| pages_next url st output st1 response pages st2 evs :
    url <> "" ->
    runAzCommand (GET_args url) st = (Ok output, st1, [EvAz (GET_args url)]) ->
    json_Unmarshal_instances output = Ok response ->
    pages_from (Response.NextLink response) st1 pages st2 evs ->
    pages_from url st (response :: pages) st2 (EvAz (GET_args url) :: evs).

Definition rows_of `{Env} (pages : list Response.t) : list EligibleRole.t :=
  map eligibleRoleOfItem (concat (map Response.Value pages)).

(** The URL [getEligibleRolesAtScope] starts from. *)
Definition scopeURL (scope : string) : string :=
  if bool_decide (scope = "") then
    "https://management.azure.com" +:+ eligibilityInstancesQuery
  else "https://management.azure.com" +:+ scope +:+ eligibilityInstancesQuery.

(** First-seen deduplication, as a recursion over the input: [seen] reads
    as in the loop. *)
Fixpoint dedup_kept (seen : gmap string bool) (l : list EligibleRole.t)
  : list EligibleRole.t :=
  match l with
  | [] => []
  | role :: l' =>
      if default false (seen !! EligibleRole.ID role) then dedup_kept seen l'
      else role :: dedup_kept (<[EligibleRole.ID role := true]> seen) l'
  end.

(** [ActivateRole req st] asks who is signed in, looks the schedule up
    with the filter of the eligibility record, and submits the marshalled
    [body] when marshalling succeeds; it runs [az] for nothing else. *)
Definition ActivateRole_submits `{Env} (req : ActivationRequest.t) (st : state)
    (body : gmap string value) : Prop :=
  let role := ActivationRequest.Role req in
  az_calls (ActivateRole req st).2 =
  [whoami_args;
   GET_args (eligibilitySchedulesURL (EligibleRole.Scope role)
               (EligibleRole.RoleDefinitionID role)
               (EligibleRole.PrincipalID role))]
  ++ match json_Marshal (VMap body) with
     | Ok bodyJSON =>
         [PUT_args (activationURL (EligibleRole.Scope role)
                      (lift_world uuid_New_String st).1.1) bodyJSON]
     | Err _ => []
     end.

(** ** A small world to run the program in

    A tenant with three subscriptions: [A] answers in three pages, [B]
    refuses the eligibility query, [C] answers in one page that repeats a
    row of the tenant-level answer. The world counts the interactions. *)
Module Demo.

Definition ok (out : string) : exec_result := mkExec None out "".

Definition failed (msg : string) : exec_result :=
  mkExec (Some "exit status 1") "" msg.

Definition item (id roleDef scope principal start : string) : Item.t :=
  Item.mk id "" "" (Item.mkProperties roleDef scope principal "Provisioned"
                      "Group" start None None).

Definition reader : string :=
  "/providers/Microsoft.Authorization/roleDefinitions/reader".

Definition itemT : Item.t :=
  item "/subscriptions/C/providers/x/roleEligibilityScheduleInstances/i-c"
       reader "/subscriptions/C" "group-9" "2024-01-01T00:00:00Z".

Definition itemA1 : Item.t :=
  item "/subscriptions/A/providers/x/roleEligibilityScheduleInstances/i-a1"
       reader "/subscriptions/A" "group-9" "not a date".

Definition itemA2 : Item.t :=
  item "/subscriptions/A/providers/x/roleEligibilityScheduleInstances/i-a2"
       reader "/subscriptions/A/resourceGroups/rg" "group-9" "".

Definition itemA3 : Item.t :=
  item "/subscriptions/A/providers/x/roleEligibilityScheduleInstances/i-a3"
       reader "/providers/Microsoft.Management/managementGroups/mg" "user-1" "".

Definition pageA2 : string := "https://management.azure.com/next?page=2".
Definition pageA3 : string := "https://management.azure.com/next?page=3".

Definition schedulesURL_T : string :=
  eligibilitySchedulesURL "/subscriptions/C" reader "group-9".

Definition respond (args : list string) : exec_result :=
  if bool_decide (args = whoami_args) then ok "user-1"
  else if bool_decide
            (args = ["account"; "list"; "--query"; "[].{id:id, name:name}";
                     "-o"; "json"]) then ok "subscriptions"
  else if bool_decide (args = GET_args (scopeURL "")) then ok "tenant"
  else if bool_decide (args = GET_args (scopeURL "/subscriptions/A")) then
    ok "A, page 1"
  else if bool_decide (args = GET_args pageA2) then ok "A, page 2"
  else if bool_decide (args = GET_args pageA3) then ok "A, page 3"
  else if bool_decide (args = GET_args (scopeURL "/subscriptions/C")) then
    ok "C"
  else if bool_decide (args = GET_args schedulesURL_T) then ok "schedules"
  else if bool_decide (take 3 args = ["rest"; "--method"; "PUT"]) then ok "{}"
  else failed "AuthorizationFailed".

Definition unmarshal_instances (out : string) : result Response.t :=
  if bool_decide (out = "tenant") then Ok (Response.mk [itemT] "")
  else if bool_decide (out = "A, page 1") then Ok (Response.mk [itemA1] pageA2)
  else if bool_decide (out = "A, page 2") then Ok (Response.mk [itemA2] pageA3)
  else if bool_decide (out = "A, page 3") then Ok (Response.mk [itemA3] "")
  else if bool_decide (out = "C") then Ok (Response.mk [itemT] "")
  else Err "invalid character".

Definition unmarshal_subscriptions (out : string)
  : result (list subscription.t) :=
  if bool_decide (out = "subscriptions") then
    Ok [subscription.mk "A" "alpha"; subscription.mk "B" "beta";
        subscription.mk "C" "gamma"]
  else Err "invalid character".

Definition unmarshal_schedules (out : string) : result (list Schedule.t) :=
  if bool_decide (out = "schedules") then
    Ok [Schedule.mk "/subscriptions/C/providers/x/roleEligibilitySchedules/s-1"
          "s-1"]
  else Err "invalid character".

Definition parse_time (s : string) : option Time :=
  if bool_decide (s = "2024-01-01T00:00:00Z") then Some (mkTime 1704067200 0 0)
  else None.

#[export] Instance env : Env := {|
  World := nat;
  exec_az := fun args w => (respond args, S w);
  uuid_New_String := fun w => ("uuid-" +:+ pretty w, S w);
  time_Now := fun w => (mkTime (Z.of_nat w) 0 0, w);
  tea_Run := fun roles _ w => (Ok (selectorModel.mk (head roles) false), S w);
  time_UTC := fun t => t;
  time_Format_RFC3339 := fun t => "T+" +:+ pretty (wall_sec t);
  time_Parse_RFC3339 := parse_time;
  strings_TrimSpace := fun s => s;
  SuccessStyle_Render := fun s => s;
  json_Marshal := fun _ => Ok "{...}";
  json_Unmarshal_subscriptions := unmarshal_subscriptions;
  json_Unmarshal_instances := unmarshal_instances;
  json_Unmarshal_schedules := unmarshal_schedules |}.

(** The state after [n] interactions, without debug output. *)
Definition after (n : nat) : state := mkState (n : World) false.

Definition st0 : state := after 0.

Definition roleT : EligibleRole.t := eligibleRoleOfItem itemT.

Definition request : ActivationRequest.t :=
  ActivationRequest.mk roleT 90 "on call" "INC-7" "".

End Demo.

(** ** Further observations and specifications *)

(** All the events are [az] invocations: nothing was printed and no
    chooser ran. *)
Definition only_az (evs : list event) : Prop :=
  Forall (fun e => exists args, e = EvAz args) evs.

Definition account_list_args : list string :=
  ["account"; "list"; "--query"; "[].{id:id, name:name}"; "-o"; "json"].

(** [sep] does not occur in [s]. *)
Definition free_of (sep : ascii) (s : string) : Prop :=
  forall a b, s <> a +:+ String sep b.

(** A computation that does the same with and without [Verbose], the
    debug output apart: same result, same world left, same [az]
    invocations, the variable itself untouched; without [Verbose] it
    interacts through [az] only. *)
Definition Verbose_invariant `{Env} {A} (c : M A) : Prop :=
  forall (w : World) (v : bool),
    (c (mkState w v)).1.1 = (c (mkState w false)).1.1
    /\ (c (mkState w v)).1.2 = mkState (world (c (mkState w false)).1.2) v
    /\ az_calls (c (mkState w v)).2 = az_calls (c (mkState w false)).2
    /\ only_az (c (mkState w false)).2.

(** A computation whose only interactions are [az] invocations. *)
Definition Silent `{Env} {A} (c : M A) : Prop :=
  forall st, only_az (c st).2.

(** A stretch of a chain of pages: from [url], each request succeeds and
    parses, up to the link [url'] that is to be requested next. *)
Inductive pages_to `{Env}
  : string -> state -> list Response.t -> string -> state -> list event
    -> Prop :=
| pages_to_here url st : pages_to url st [] url st []
| pages_to_next url st output st1 response pages url' st2 evs :
    url <> "" ->
    runAzCommand (GET_args url) st = (Ok output, st1, [EvAz (GET_args url)]) ->
    json_Unmarshal_instances output = Ok response ->
    pages_to (Response.NextLink response) st1 pages url' st2 evs ->
    pages_to url st (response :: pages) url' st2
      (EvAz (GET_args url) :: evs).

(** ** A world that follows a script

    The [n]-th [az] invocation gets the [n]-th answer of the script,
    whatever it asks; decoding looks the output up in a table. *)
Module Script.

Definition decode {A} (table : list (string * A)) (out : string) : result A :=
  match list_find (fun entry => entry.1 = out) table with
  | Some (_, (_, a)) => Ok a
  | None => Err "invalid character"
  end.

Definition env (answers : list exec_result)
    (pages : list (string * Response.t))
    (subscriptions : list (string * list subscription.t))
    (schedules : list (string * list Schedule.t)) : Env := {|
  World := nat;
  exec_az := fun _ w => (nth w answers (Demo.failed "no more answers"), S w);
  uuid_New_String := fun w => ("uuid-" +:+ pretty w, w);
  time_Now := fun w => (mkTime (Z.of_nat w) 0 0, w);
  tea_Run := fun roles _ w => (Ok (selectorModel.mk (last roles) false), w);
  time_UTC := fun t => t;
  time_Format_RFC3339 := fun t => "T+" +:+ pretty (wall_sec t);
  time_Parse_RFC3339 := Demo.parse_time;
  strings_TrimSpace := fun s => s;
  SuccessStyle_Render := fun s => s;
  json_Marshal := fun _ => Ok "{...}";
  json_Unmarshal_subscriptions := decode subscriptions;
  json_Unmarshal_instances := decode pages;
  json_Unmarshal_schedules := decode schedules |}.

End Script.

(** ** The rest of the command line

    [cli.go], the spinner and the text prompt of package [ui], and the
    [activate] command of [main.go]. *)

Module UserInfo.
Record t := mk
  { DisplayName : string; ObjectID : string; Mail : string; UPN : string }.
End UserInfo.

(** The fields of the final [spinnerModel] that [SpinWithResult] reads;
    [result] is the [any] that holds the value of the function once it has
    returned. *)
Module spinnerModel.
Record t (A : Type) := mk
  { result : option A; err : option string; done : bool }.
Arguments mk {A} _ _ _.
Arguments result {A} _.
Arguments err {A} _.
Arguments done {A} _.
End spinnerModel.

(** The fields of the final [textPromptModel] that
    [PromptForJustification] reads; [value] is [textInput.Value()]. *)
Module textPromptModel.
Record t := mk { value : string; done : bool; cancelled : bool }.
End textPromptModel.

(** The flags of the command, which [main] binds to package variables. *)
Module Flags.
Record t := mk
  { duration : Z;
    reason : string;
    ticketNum : string;
    ticketSys : string;
    nonInteractive : bool;
    verbose : bool }.
End Flags.

(** What these functions reach outside the process besides [Env]:
    [exec.LookPath("az")] (whether it finds the executable),
    [isatty.IsTerminal(os.Stdout.Fd())], the two terminal programs run by
    [tea.NewProgram(m).Run()] (the spinner starts the function it is given
    on its own and returns its final model), two decoders of
    [json.Unmarshal] (the second yields [account.User.Name]), two styles
    and the count of runes by which [fmt] pads a string. *)
Class Console `{Env} := {
  exec_LookPath_az : World -> bool * World;
  isatty_stdout : World -> bool * World;
  spinner_Run :
    forall A, string -> M (option (result A)) ->
              M (option (result (spinnerModel.t A)));
  prompt_Run : World -> result textPromptModel.t * World;
  json_Unmarshal_UserInfo : string -> result UserInfo.t;
  json_Unmarshal_account : string -> result string;
  TitleStyle_Render : string -> string;
  SubtleStyle_Render : string -> string;
  utf8_RuneCountInString : string -> nat }.

(** A computation without loop, among those that may run out of fuel. *)
Definition total `{Env} {A} (c : M A) : M (option A) :=
  fun st => let '(a, st', evs) := c st in (Some a, st', evs).

(** [azure.Verbose = verbose] *)
Definition set_Verbose `{Env} (v : bool) : M unit :=
  fun st => (tt, mkState (world st) v, []).

(** [truncate(s, max)]; [None] is the panic of the slice expression
    [s[:max-3]] when [max-3] is negative. Lengths are in bytes. *)
Definition truncate (s : string) (max : Z) : option string :=
  if bool_decide (Z.of_nat (String.length s) > max)%Z then
    if bool_decide (0 <= max - 3)%Z then
      Some (substring 0 (Z.to_nat (max - 3)) s +:+ "...")
    else None
  else Some s.

(** [strings.Repeat(s, count)] *)
Fixpoint strings_Repeat (s : string) (count : nat) : string :=
  match count with
  | O => ""
  | S count' => s +:+ strings_Repeat s count'
  end.

(** [role.Status = v] on a copy of the role. *)
Definition with_Status (v : string) (r : EligibleRole.t) : EligibleRole.t :=
  EligibleRole.mk (EligibleRole.ID r) (EligibleRole.RoleDefinitionID r)
    (EligibleRole.RoleName r) (EligibleRole.Scope r) (EligibleRole.ScopeName r)
    (EligibleRole.ScopeType r) (EligibleRole.PrincipalID r) v
    (EligibleRole.MemberType r) (EligibleRole.StartDateTime r)
    (EligibleRole.EndDateTime r) (EligibleRole.MaxDuration r)
    (EligibleRole.EligibilityID r) (EligibleRole.ExpandedProperties r).

Section CommandLine.
Context `{Console}.

(** *** cli.go *)

Definition IsAzCliInstalled : M bool := lift_world exec_LookPath_az.

Definition IsAuthenticated : M bool :=
  r <- runAzCommand ["account"; "show"] ;;
  ret (is_Ok r).

Definition getCurrentUserFromAccount : M (result UserInfo.t) :=
  r <- runAzCommand ["account"; "show"; "--output"; "json"] ;;
  match r with
  | Err err => ret (Err err)
  | Ok output =>
      match json_Unmarshal_account output with
      | Err err => ret (Err err)
      | Ok account_User_Name =>
          ret (Ok {| UserInfo.DisplayName := account_User_Name;
                     UserInfo.UPN := account_User_Name;
                     UserInfo.ObjectID := "";
                     UserInfo.Mail := "" |})
      end
  end.

Definition GetCurrentUser : M (result UserInfo.t) :=
  r <- runAzCommand ["ad"; "signed-in-user"; "show"; "--output"; "json"] ;;
  match r with
  | Err _ => getCurrentUserFromAccount
  | Ok output =>
      match json_Unmarshal_UserInfo output with
      | Err _ => getCurrentUserFromAccount
      | Ok user => ret (Ok user)
      end
  end.

(** *** The spinner and the prompt (package [ui]) *)

(** The test [nonInteractive || !isatty.IsTerminal(...)]: the terminal is
    asked only when [nonInteractive] is false. The branch
    ["unexpected model type"] needs a final model of another type, which
    [spinner_Run] does not return. *)
Definition SpinWithResult {A} (title : string) (fn : M (option (result A)))
    (nonInteractive : bool) : M (option (result A)) :=
  plain <- (if nonInteractive then ret true
            else (tty <- lift_world isatty_stdout ;; ret (negb tty))) ;;
  if (plain : bool) then
    emit (EvStdout (title +:+ "..." +:+ nl)) ;;
    fn
  else
    o <- spinner_Run A title fn ;;
    match o with
    | None => ret None
    | Some (Err err) => ret (Some (Err ("spinner program failed: " +:+ err)))
    | Some (Ok result) =>
        match spinnerModel.err result with
        | Some err => ret (Some (Err err))
        | None =>
            match spinnerModel.result result with
            | Some val => ret (Some (Ok val))
            | None => ret (Some (Err "unexpected result type"))
            end
        end
    end.

Definition SpinWithAction (title : string) (fn : M (option (result unit)))
    (nonInteractive : bool) : M (option (result unit)) :=
  SpinWithResult title fn nonInteractive.

Definition PromptForJustification : M (result string) :=
  r <- lift_world prompt_Run ;;
  match r with
  | Err err => ret (Err ("text prompt failed: " +:+ err))
  | Ok result =>
      if textPromptModel.cancelled result then ret (Err "cancelled")
      else ret (Ok (textPromptModel.value result))
  end.

(** *** The tables (package [ui]) *)

(** The verb [%-Ns] of [fmt.Sprintf]: the string, then spaces up to
    [width] runes. *)
Definition fmt_s_left (width : nat) (s : string) : string :=
  s +:+ strings_Repeat " " (width - utf8_RuneCountInString s).

(** The body of the loop of [RenderEligibleRolesTable]: the line of one
    role, [None] when [truncate] panics. *)
Definition eligibleRow (role : EligibleRole.t) : option string :=
  roleName ← truncate (EligibleRole.RoleName role) 28;
  scopeName ← truncate (EligibleRole.ScopeName role) 38;
  Some ("  " +:+ fmt_s_left 30 roleName +:+ " " +:+ fmt_s_left 40 scopeName
        +:+ " " +:+ fmt_s_left 15 (EligibleRole.ScopeType role) +:+ nl).

Definition RenderEligibleRolesTable (roles : list EligibleRole.t)
  : option string :=
  let header :=
    "  " +:+ fmt_s_left 30 "ROLE" +:+ " " +:+ fmt_s_left 40 "SCOPE" +:+ " "
    +:+ fmt_s_left 15 "TYPE" in
  let divider := "  " +:+ strings_Repeat "─" 85 in
  let b := TitleStyle_Render header +:+ nl in
  let b := b +:+ (SubtleStyle_Render divider +:+ nl) in
  foldl (fun b role => b ← b; row ← eligibleRow role; Some (b +:+ row))
    (Some b) roles.

(** The body of the loop of [RenderActiveRolesTable]. *)
Definition activeRow (role : EligibleRole.t) : option string :=
  roleName ← truncate (EligibleRole.RoleName role) 28;
  scopeName ← truncate (EligibleRole.ScopeName role) 38;
  let status := EligibleRole.Status role in
  let status := if bool_decide (status = "") then "Active" else status in
  Some ("  " +:+ fmt_s_left 30 roleName +:+ " " +:+ fmt_s_left 40 scopeName
        +:+ " " +:+ fmt_s_left 15 (EligibleRole.ScopeType role) +:+ " "
        +:+ fmt_s_left 10 status +:+ nl).

Definition RenderActiveRolesTable (roles : list EligibleRole.t)
  : option string :=
  let header :=
    "  " +:+ fmt_s_left 30 "ROLE" +:+ " " +:+ fmt_s_left 40 "SCOPE" +:+ " "
    +:+ fmt_s_left 15 "TYPE" +:+ " " +:+ fmt_s_left 10 "STATUS" in
  let divider := "  " +:+ strings_Repeat "─" 95 in
  let b := TitleStyle_Render header +:+ nl in
  let b := b +:+ (SubtleStyle_Render divider +:+ nl) in
  foldl (fun b role => b ← b; row ← activeRow role; Some (b +:+ row))
    (Some b) roles.

(** *** main.go *)

Definition checkPrerequisites : M (result unit) :=
  installed <- IsAzCliInstalled ;;
  if negb installed then
    ret (Err "Azure CLI (az) is not installed. Please install it from https://docs.microsoft.com/en-us/cli/azure/install-azure-cli")
  else
    authenticated <- IsAuthenticated ;;
    if negb authenticated then
      ret (Err "You are not logged in to Azure CLI. Please run 'az login' first")
    else ret (Ok tt).

Definition runActivate (fuel : nat) (flags : Flags.t)
  : M (option (result unit)) :=
  let nonInteractive := Flags.nonInteractive flags in
  set_Verbose (Flags.verbose flags) ;;
  r <- checkPrerequisites ;;
  match r with
  | Err err => ret (Some (Err err))
  | Ok _ =>
  o <- SpinWithResult "Fetching user info" (total GetCurrentUser) nonInteractive ;;
  match o with
  | None => ret None
  | Some (Err err) => ret (Some (Err ("failed to get current user: " +:+ err)))
  | Some (Ok user) =>
  emit (EvStdout ("Logged in as: "
                  +:+ TitleStyle_Render (UserInfo.DisplayName user)
                  +:+ nl +:+ nl)) ;;
  o <- SpinWithResult "Fetching eligible roles"
         (GetEligibleRoleAssignments fuel) nonInteractive ;;
  match o with
  | None => ret None
  | Some (Err err) => ret (Some (Err ("failed to get eligible roles: " +:+ err)))
  | Some (Ok eligibleRoles) =>
  emit (EvStdout ("Found " +:+ fmt_d (Z.of_nat (length eligibleRoles))
                  +:+ " eligible role(s)" +:+ nl)) ;;
  if bool_decide (length eligibleRoles = 0%nat) then
    emit (EvStdout ("No eligible role assignments found." +:+ nl)) ;;
    ret (Some (Ok tt))
  else
  r <- SelectRole eligibleRoles nonInteractive ;;
  match r with
  | Err err => ret (Some (Err ("role selection failed: " +:+ err)))
  | Ok selectedRole =>
  let justification := Flags.reason flags in
  r <- (if bool_decide (justification = "") && negb nonInteractive
        then PromptForJustification else ret (Ok justification)) ;;
  match r with
  | Err err => ret (Some (Err ("failed to get justification: " +:+ err)))
  | Ok justification =>
  let activationRequest :=
    {| ActivationRequest.Role := selectedRole;
       ActivationRequest.Duration := Flags.duration flags;
       ActivationRequest.Justification := justification;
       ActivationRequest.TicketNumber := Flags.ticketNum flags;
       ActivationRequest.TicketSystem := Flags.ticketSys flags |} in
  o <- SpinWithAction
         ("Activating " +:+ EligibleRole.RoleName selectedRole +:+ " on "
          +:+ EligibleRole.ScopeName selectedRole)
         (total (ActivateRole activationRequest)) nonInteractive ;;
  match o with
  | None => ret None
  | Some (Err err) => ret (Some (Err ("failed to activate role: " +:+ err)))
  | Some (Ok _) =>
  emit (EvStdout
          (SuccessStyle_Render
             ("Successfully activated " +:+ EligibleRole.RoleName selectedRole
              +:+ " for " +:+ fmt_d (Flags.duration flags) +:+ " minutes")
           +:+ nl)) ;;
  ret (Some (Ok tt))
  end end end end end end.

End CommandLine.

(** A console for the small worlds: [az] is installed, the output is not
    a terminal, the spinner runs its function to the end, the prompt
    returns a typed line. *)
Module DemoConsole.

Definition unmarshal_user (out : string) : result UserInfo.t :=
  if bool_decide (out = "user") then
    Ok (UserInfo.mk "Ada" "user-1" "" "ada@example.org")
  else Err "invalid character".

Definition unmarshal_account (out : string) : result string :=
  if bool_decide (out = "account") then Ok "ada@example.org"
  else Err "invalid character".

Definition console (E : Env) : Console := {|
  exec_LookPath_az := fun w => (true, w);
  isatty_stdout := fun w => (false, w);
  spinner_Run := fun A _ fn =>
    bind fn (fun o =>
      ret (match o with
           | None => None
           | Some (Ok a) => Some (Ok (spinnerModel.mk (Some a) None true))
           | Some (Err e) => Some (Ok (spinnerModel.mk None (Some e) true))
           end));
  prompt_Run := fun w => (Ok (textPromptModel.mk "typed" true false), w);
  json_Unmarshal_UserInfo := unmarshal_user;
  json_Unmarshal_account := unmarshal_account;
  TitleStyle_Render := fun s => s;
  SubtleStyle_Render := fun s => s;
  utf8_RuneCountInString := String.length |}.

End DemoConsole.

(** Scripts for the small worlds. *)
Module Scenario.

Definition start (E : Env) (w : @World E) : @state E := mkState w false.

(** Every [az] invocation fails. *)
Definition offline : Env := Script.env [] [] [] [].

(** One page with a continuation link, and nothing after it. *)
Definition one_page : Env :=
  Script.env [Demo.ok "page 1"]
    [("page 1", Response.mk [Demo.itemA1] "https://management.azure.com/next")]
    [] [].

(** Signed in, no subscription, the roles of [tenant] at the tenant
    level, one schedule, and a submission that is accepted. *)
Definition activation (tenant : list Item.t) : Env :=
  Script.env
    [Demo.ok ""; Demo.ok "user"; Demo.ok "subscriptions"; Demo.ok "tenant";
     Demo.ok "user-1"; Demo.ok "schedules"; Demo.ok "{}"]
    [("tenant", Response.mk tenant "")]
    [("subscriptions", [])]
    [("schedules", [Schedule.mk "/subscriptions/C/providers/x/s-1" "s-1"])].

(** The directory query fails, the account query answers. *)
Definition no_directory : Env :=
  Script.env [Demo.failed "Insufficient privileges"; Demo.ok "account"]
    [] [] [].

Definition flags : Flags.t := Flags.mk 90 "" "INC-7" "" true false.

End Scenario.

Section Properties.
Context `{Env}.

(** *** The basic computations *)

Lemma az_calls_app (a b : list event) :
  az_calls (a ++ b) = az_calls a ++ az_calls b.
Proof. apply omap_app. Qed.

Lemma runAzCommand_eq (args : list string) (st : state) :
  runAzCommand args st =
  (match run_err (exec_az args (world st)).1 with
   | Some err =>
       Err ("az command failed: " +:+ err +:+ nl +:+ "stderr: "
            +:+ stderr (exec_az args (world st)).1)
   | None => Ok (stdout (exec_az args (world st)).1)
   end,
   mkState (exec_az args (world st)).2 (Verbose st),
   [EvAz args]).
Proof.
  unfold runAzCommand, bind, emit, lift_world, ret; cbn.
  destruct (exec_az args (world st)) as [r w]; cbn.
  by destruct (run_err r).
Qed.

Lemma runAzCommand_events (args : list string) (st : state) :
  (runAzCommand args st).2 = [EvAz args].
Proof. by rewrite runAzCommand_eq. Qed.

Lemma runAzCommand_Verbose (args : list string) (st : state) :
  Verbose (runAzCommand args st).1.2 = Verbose st.
Proof. by rewrite runAzCommand_eq. Qed.

Lemma debugf_eq (text : string) (st : state) :
  debugf text st =
  (tt, st, if Verbose st then [EvStderr ("[DEBUG] " +:+ text +:+ nl)] else []).
Proof. unfold debugf, emit, ret. by destruct (Verbose st). Qed.

Lemma az_calls_debug (b : bool) (text : string) :
  az_calls (if b then [EvStderr text] else []) = [].
Proof. by destruct b. Qed.

Lemma GetCurrentUserPrincipalID_eq (st : state) :
  GetCurrentUserPrincipalID st =
  (match (runAzCommand whoami_args st).1.1 with
   | Err err => Err ("failed to get current user principal ID: " +:+ err)
   | Ok output => Ok (strings_TrimSpace output)
   end,
   (runAzCommand whoami_args st).1.2,
   [EvAz whoami_args]).
Proof.
  unfold GetCurrentUserPrincipalID, bind. fold whoami_args.
  rewrite runAzCommand_eq; cbn.
  by destruct (run_err _).
Qed.

Lemma getEligibilityScheduleID_calls (scope roleDefinitionID principalID : string)
    (st : state) :
  az_calls (getEligibilityScheduleID scope roleDefinitionID principalID st).2
  = [GET_args (eligibilitySchedulesURL scope roleDefinitionID principalID)].
Proof.
  unfold getEligibilityScheduleID, bind.
  rewrite debugf_eq, runAzCommand_eq; cbn.
  destruct (run_err _); cbn.
  - by rewrite az_calls_app, az_calls_debug.
  - destruct (json_Unmarshal_schedules _) as [[|first rest]|err]; cbn;
      rewrite ?debugf_eq; cbn; rewrite !az_calls_app, !az_calls_debug; cbn; try done.
    by rewrite az_calls_app, az_calls_debug.
Qed.



Lemma linkedScheduleID_calls (role : EligibleRole.t) (st : state) :
  az_calls (ActivateRole_linkedScheduleID role st).2 =
  [GET_args (eligibilitySchedulesURL (EligibleRole.Scope role)
               (EligibleRole.RoleDefinitionID role)
               (EligibleRole.PrincipalID role))].
Proof.
  unfold ActivateRole_linkedScheduleID, bind.
  pose proof (getEligibilityScheduleID_calls (EligibleRole.Scope role)
                (EligibleRole.RoleDefinitionID role)
                (EligibleRole.PrincipalID role) st) as Hc.
  destruct (getEligibilityScheduleID _ _ _ st) as [[[id|err] st1] evs];
    cbn [fst snd ret] in *.
  - by rewrite app_nil_r.
  - rewrite debugf_eq; cbn [fst snd ret].
    by rewrite az_calls_app, az_calls_app, az_calls_debug, Hc.
Qed.

Lemma linkedScheduleID_Verbose (role : EligibleRole.t) (st : state) :
  Verbose (ActivateRole_linkedScheduleID role st).1.2 = Verbose st.
Proof.
  unfold ActivateRole_linkedScheduleID, getEligibilityScheduleID, bind.
  rewrite debugf_eq, runAzCommand_eq; cbn.
  destruct (run_err _); cbn; rewrite ?debugf_eq; cbn; [done |].
  destruct (json_Unmarshal_schedules _) as [[|first rest]|err]; cbn;
    rewrite ?debugf_eq; by cbn.
Qed.

(** What a run of [ActivateRole] returns and which [az] invocations it
    makes, once the activating principal has been resolved. *)
Lemma ActivateRole_run (req : ActivationRequest.t) (st : state)
    (p : string) (st2 : state) (evs2 : list event) :
  GetCurrentUserPrincipalID (lift_world uuid_New_String st).1.2
  = (Ok p, st2, evs2) ->
  let role := ActivationRequest.Role req in
  let requestID := (lift_world uuid_New_String st).1.1 in
  let link := ActivateRole_linkedScheduleID role st2 in
  let clock := lift_world time_Now link.1.2 in
  let body := activationBody req p link.1.1 clock.1.1 in
  let url := activationURL (EligibleRole.Scope role) requestID in
  (ActivateRole req st).1.1 =
    match json_Marshal (VMap body) with
    | Err err => Err ("failed to marshal request body: " +:+ err)
    | Ok bodyJSON =>
        match (runAzCommand (PUT_args url bodyJSON) clock.1.2).1.1 with
        | Err err => Err ("activation request failed: " +:+ err)
        | Ok _ => Ok tt
        end
    end
  /\ az_calls (ActivateRole req st).2 =
     [whoami_args;
      GET_args (eligibilitySchedulesURL (EligibleRole.Scope role)
                  (EligibleRole.RoleDefinitionID role)
                  (EligibleRole.PrincipalID role))]
     ++ match json_Marshal (VMap body) with
        | Ok bodyJSON => [PUT_args url bodyJSON]
        | Err _ => []
        end.
Proof.
  intros Hp role requestID link clock body url.
  assert (Hev : az_calls evs2 = [whoami_args]).
  { rewrite GetCurrentUserPrincipalID_eq in Hp. by inversion Hp. }
  pose proof (linkedScheduleID_calls role st2) as Hlink.
  unfold ActivateRole, bind. fold role.
  subst requestID url body clock link.
  destruct (lift_world uuid_New_String st) as [[rid st1] evs1] eqn:E1.
  assert (evs1 = []) as ->.
  { unfold lift_world in E1. destruct (uuid_New_String _). by inversion E1. }
  cbn [fst snd] in *. rewrite Hp.
  rewrite !debugf_eq.
  destruct (ActivateRole_linkedScheduleID role st2) as [[sid st3] evs3].
  cbn [fst snd] in *. rewrite debugf_eq.
  unfold activationBody.
  destruct (lift_world time_Now st3) as [[now st4] evs4] eqn:E4.
  assert (evs4 = []) as ->.
  { unfold lift_world in E4. destruct (time_Now _). by inversion E4. }
  cbn [fst snd].
  destruct (json_Marshal _) as [bodyJSON|err]; cbn [fst snd].
  - rewrite !debugf_eq.
    fold (PUT_args (activationURL (EligibleRole.Scope role) rid) bodyJSON).
    rewrite runAzCommand_eq. cbn [fst snd].
    destruct (run_err _); rewrite ?debugf_eq;
      lazy beta iota zeta delta [ret fst snd];
      (split; [done |]);
      rewrite !az_calls_app, !az_calls_debug, Hev, Hlink; by cbn.
  - lazy beta iota zeta delta [ret fst snd]. split; [done |].
    rewrite !az_calls_app, !az_calls_debug, Hev, Hlink; by cbn.
Qed.

Lemma ActivateRole_submits_body (req : ActivationRequest.t) (st : state)
    (p : string) (st2 : state) (evs2 : list event) :
  GetCurrentUserPrincipalID (lift_world uuid_New_String st).1.2
  = (Ok p, st2, evs2) ->
  let link := ActivateRole_linkedScheduleID (ActivationRequest.Role req) st2 in
  ActivateRole_submits req st
    (activationBody req p link.1.1 (lift_world time_Now link.1.2).1.1).
Proof. intros Hp. apply (ActivateRole_run req st p st2 evs2 Hp). Qed.

(** *** Strings and numerals *)

Lemma append_assoc (a b c : string) : (a +:+ b) +:+ c = a +:+ (b +:+ c).
Proof.
  induction a as [|x a IH]; [done |].
  change (String x ((a +:+ b) +:+ c) = String x (a +:+ (b +:+ c))).
  by rewrite IH.
Qed.

Lemma length_append (a b : string) :
  String.length (a +:+ b) = (String.length a + String.length b)%nat.
Proof.
  induction a as [|c a IH]; [done |].
  change (S (String.length (a +:+ b)) = S (String.length a + String.length b)).
  by rewrite IH.
Qed.

Lemma append_inj_r (x y s : string) : x +:+ s = y +:+ s -> x = y.
Proof.
  revert y. induction x as [|a x IH]; intros [|b y] Heq; [done | | |].
  - exfalso. apply (f_equal String.length) in Heq.
    change (String.length s = S (String.length (y +:+ s))) in Heq.
    rewrite length_append in Heq. lia.
  - exfalso. apply (f_equal String.length) in Heq.
    change (S (String.length (x +:+ s)) = String.length s) in Heq.
    rewrite length_append in Heq. lia.
  - change (String a (x +:+ s) = String b (y +:+ s)) in Heq.
    injection Heq as -> Heq. by rewrite (IH y Heq).
Qed.

Lemma GET_args_inj (url1 url2 : string) :
  GET_args url1 = GET_args url2 -> url1 = url2.
Proof. unfold GET_args. by intros [= ->]. Qed.

(** The lookup URL determines the principal of its filter. *)
Lemma eligibilitySchedulesURL_inj (scope roleDefinitionID p1 p2 : string) :
  eligibilitySchedulesURL scope roleDefinitionID p1
  = eligibilitySchedulesURL scope roleDefinitionID p2 ->
  p1 = p2.
Proof.
  unfold eligibilitySchedulesURL. intros Heq.
  do 3 apply (inj (String.app _)) in Heq.
  by apply append_inj_r in Heq.
Qed.

(** [%d]: the digits of stdpp's [pretty], most significant first. *)
Lemma pretty_N_go_app (x : N) (s : string) :
  pretty_N_go x s = pretty_N_go x "" +:+ s.
Proof.
  revert s. induction (N.lt_wf_0 x) as [x _ IH]; intros s.
  assert (x = 0 \/ 0 < x)%N as [-> | Hpos] by lia; [done |].
  rewrite !(pretty_N_go_step x) by done.
  rewrite (IH (x `div` 10)%N) by (by apply N.div_lt).
  rewrite (IH (x `div` 10)%N (N.div_lt x 10 Hpos eq_refl) (String _ "")).
  by rewrite append_assoc.
Qed.

Lemma fmt_d_N (n : Z) : (0 <= n)%Z -> fmt_d n = pretty (Z.to_N n).
Proof. intros Hn. destruct n as [| n | n]; [done | done | lia]. Qed.

Lemma pretty_N_digit (x : N) :
  (x < 10)%N -> pretty x = String (pretty_N_char x) "".
Proof.
  intros Hx.
  assert (exists k : nat, x = N.of_nat k /\ (k < 10)%nat) as (k & -> & Hk)
    by (exists (N.to_nat x); lia).
  do 10 (destruct k as [|k]; [done |]). lia.
Qed.

Lemma pretty_N_step (x : N) :
  (10 <= x)%N -> pretty x = pretty (x `div` 10)%N +:+ pretty (x `mod` 10)%N.
Proof.
  intros Hx. unfold pretty at 1 2, pretty_N.
  assert (0 < x `div` 10)%N as Hdiv by (apply N.div_str_pos; lia).
  rewrite !decide_False by lia.
  rewrite pretty_N_go_step, pretty_N_go_app by lia.
  by rewrite pretty_N_digit by (apply N.mod_lt; lia).
Qed.

Lemma fmt_d_digit (n : Z) :
  (0 <= n < 10)%Z -> fmt_d n = String (ascii_of_nat (48 + Z.to_nat n)) "".
Proof.
  intros Hn.
  assert (exists k : nat, n = Z.of_nat k /\ (k < 10)%nat) as (k & -> & Hk)
    by (exists (Z.to_nat n); lia).
  do 10 (destruct k as [|k]; [done |]). lia.
Qed.

Lemma fmt_d_step (n : Z) :
  (10 <= n)%Z -> fmt_d n = fmt_d (n `div` 10) +:+ fmt_d (n `mod` 10).
Proof.
  intros Hn.
  rewrite !fmt_d_N by (try apply Z.div_pos; try apply Z.mod_pos_bound; lia).
  rewrite pretty_N_step by lia.
  by rewrite Z2N.inj_div, Z2N.inj_mod by lia.
Qed.

Lemma fmt_d_negative (n : Z) : (n < 0)%Z -> fmt_d n = "-" +:+ fmt_d (- n).
Proof. intros Hn. destruct n as [| n | n]; [lia | lia | done]. Qed.

(** *** The request body *)

Lemma activationBody_property (k : string) (req : ActivationRequest.t)
    (p sid : string) (now : Time) :
  k <> "ticketInfo" ->
  property k (activationBody req p sid now)
  = property k (requestBody_literal req p sid now).
Proof.
  intros Hk. unfold activationBody, add_ticketInfo.
  destruct (_ || _); [| done].
  change (requestBody_literal req p sid now !! "properties") with
    (Some (VMap
       {[ "principalId" := VStr p;
          "roleDefinitionId" :=
            VStr (EligibleRole.RoleDefinitionID (ActivationRequest.Role req));
          "requestType" := VStr "SelfActivate";
          "linkedRoleEligibilityScheduleId" := VStr sid;
          "justification" := VStr (ActivationRequest.Justification req);
          "scheduleInfo" := VMap
            {[ "startDateTime" := VStr (time_Format_RFC3339 (time_UTC now));
               "expiration" := VMap
                 {[ "type" := VStr "AfterDuration";
                    "duration" :=
                      VStr ("PT" +:+ fmt_d (ActivationRequest.Duration req)
                            +:+ "M") ]} ]} ]})).
  unfold property at 1. rewrite lookup_insert_eq.
  by rewrite lookup_insert_ne.
Qed.

(** C1. The request body [ActivateRole] submits carries, in [principalId],
    the identifier of the signed-in principal as [GetCurrentUserPrincipalID]
    resolved it for this attempt, whatever principal the eligibility record
    names (so never the record's principal when the two differ); the one
    schedule lookup of the attempt is filtered by the principal of the
    eligibility record: the run asks who is signed in, requests the
    schedules of the role's scope with the filter
    [principalId eq '<record's principal>' and roleDefinitionId eq '<role
    definition>'], and submits the body, and when the two principals differ
    it makes no lookup filtered by the activating one. *)
Theorem ActivateRole_principals (req : ActivationRequest.t) (st : state)
    (p : string) (st2 : state) (evs2 : list event) :
  GetCurrentUserPrincipalID (lift_world uuid_New_String st).1.2
  = (Ok p, st2, evs2) ->
  let role := ActivationRequest.Role req in
  let lookup principalID :=
    ["rest"; "--method"; "GET"; "--url";
     "https://management.azure.com" +:+ EligibleRole.Scope role
     +:+ "/providers/Microsoft.Authorization/roleEligibilitySchedules?api-version=2020-10-01&$filter=principalId eq '"
     +:+ principalID +:+ "' and roleDefinitionId eq '"
     +:+ EligibleRole.RoleDefinitionID role +:+ "'"] in
  exists sid now,
    let body := activationBody req p sid now in
    ActivateRole_submits req st body
    /\ property "principalId" body = Some (VStr p)
    /\ (p <> EligibleRole.PrincipalID role ->
        property "principalId" body
        <> Some (VStr (EligibleRole.PrincipalID role)))
    /\ az_calls (ActivateRole req st).2
       = [["ad"; "signed-in-user"; "show"; "--query"; "id"; "--output"; "tsv"];
          lookup (EligibleRole.PrincipalID role)]
         ++ match json_Marshal (VMap body) with
            | Ok bodyJSON =>
                [["rest"; "--method"; "PUT"; "--url";
                  activationURL (EligibleRole.Scope role)
                    (lift_world uuid_New_String st).1.1;
                  "--body"; bodyJSON]]
            | Err _ => []
            end
    /\ (p <> EligibleRole.PrincipalID role ->
        lookup p ∉ az_calls (ActivateRole req st).2).
Proof.
  intros Hp role lookup.
  pose proof (ActivateRole_submits_body req st p st2 evs2 Hp) as Hs.
  eexists _, _. split; [exact Hs |].
  rewrite activationBody_property by done.
  split; [done |]. split.
  { intros Hne Heq. apply Hne.
    change (Some (VStr p) = Some (VStr (EligibleRole.PrincipalID role))) in Heq.
    by inversion Heq. }
  split; [exact Hs |].
  intros Hne. unfold ActivateRole_submits in Hs. rewrite Hs.
  rewrite elem_of_app, !elem_of_cons, elem_of_nil.
  intros [[Hwho | [Hlookup | []]] | Hput].
  - discriminate Hwho.
  - apply Hne.
    apply (eligibilitySchedulesURL_inj (EligibleRole.Scope role)
             (EligibleRole.RoleDefinitionID role)).
    apply GET_args_inj. exact Hlookup.
  - destruct (json_Marshal _); [| by apply elem_of_nil in Hput].
    apply list_elem_of_singleton in Hput. discriminate Hput.
Qed.


(** C7. The request body has a [ticketInfo] object exactly when the ticket
    number or the ticket system is non-empty, and the object then holds
    the non-empty ones of the two and nothing else. *)
Theorem ticketInfo_conditional (req : ActivationRequest.t) (st : state)
    (p : string) (st2 : state) (evs2 : list event) :
  GetCurrentUserPrincipalID (lift_world uuid_New_String st).1.2
  = (Ok p, st2, evs2) ->
  let number := ActivationRequest.TicketNumber req in
  let system := ActivationRequest.TicketSystem req in
  exists sid now,
    let body := activationBody req p sid now in
    ActivateRole_submits req st body
    /\ (number = "" /\ system = "" -> property "ticketInfo" body = None)
    /\ (number <> "" \/ system <> "" ->
        exists ticketInfo : gmap string string,
          property "ticketInfo" body = Some (VStrMap ticketInfo)
          /\ ticketInfo !! "ticketNumber"
             = (if bool_decide (number = "") then None else Some number)
          /\ ticketInfo !! "ticketSystem"
             = (if bool_decide (system = "") then None else Some system)
          /\ forall k, k <> "ticketNumber" -> k <> "ticketSystem" ->
                       ticketInfo !! k = None).
Proof.
  intros Hp number system.
  eexists _, _. split; [apply (ActivateRole_submits_body req st p st2 evs2 Hp) |].
  unfold activationBody, add_ticketInfo. fold number system. split.
  - intros [-> ->]. done.
  - intros Hsome.
    assert (bool_decide (number <> "") || bool_decide (system <> "") = true)
      as ->.
    { apply orb_true_iff. rewrite !bool_decide_eq_true. exact Hsome. }
    eexists. split; [reflexivity |].
    do 2 case_bool_decide; do 2 (case_bool_decide; try done);
      (split; [by simplify_map_eq | split; [by simplify_map_eq |]]);
      intros k Hk1 Hk2; by simplify_map_eq.
Qed.

(** C8. The [scheduleInfo] of the request body starts at the reading of
    the clock taken for this request, in UTC and formatted as RFC 3339, and
    its expiration has type [AfterDuration] and the duration
    ["PT" ++ d ++ "M"], [d] being the requested minutes in decimal: 90
    minutes give ["PT90M"]. The decimal numeral is that of [%d]: a number
    below ten is its digit, a larger one is the numeral of its tenth
    followed by its last digit (so most significant digit first and no
    leading zero), and a negative one is a minus sign followed by the
    numeral of its opposite. *)
Theorem duration_encoding (req : ActivationRequest.t) (st : state)
    (p : string) (st2 : state) (evs2 : list event) :
  GetCurrentUserPrincipalID (lift_world uuid_New_String st).1.2
  = (Ok p, st2, evs2) ->
  let st3 := (ActivateRole_linkedScheduleID (ActivationRequest.Role req) st2).1.2 in
  let now := (time_Now (world st3)).1 in
  exists sid,
    let body := activationBody req p sid now in
    ActivateRole_submits req st body
    /\ scheduleInfo_field "startDateTime" body
       = Some (VStr (time_Format_RFC3339 (time_UTC now)))
    /\ expiration_field "type" body = Some (VStr "AfterDuration")
    /\ expiration_field "duration" body
       = Some (VStr ("PT" +:+ fmt_d (ActivationRequest.Duration req) +:+ "M"))
    /\ (ActivationRequest.Duration req = 90%Z ->
        expiration_field "duration" body = Some (VStr "PT90M"))
    /\ (forall n, (0 <= n < 10)%Z ->
          fmt_d n = String (ascii_of_nat (48 + Z.to_nat n)) "")
    /\ (forall n, (10 <= n)%Z ->
          fmt_d n = fmt_d (n `div` 10) +:+ fmt_d (n `mod` 10))
    /\ (forall n, (n < 0)%Z -> fmt_d n = "-" +:+ fmt_d (- n))
    /\ (forall d tens units,
          ActivationRequest.Duration req = d ->
          (10 <= d < 100)%Z -> tens = (d `div` 10)%Z -> units = (d `mod` 10)%Z ->
          expiration_field "duration" body
          = Some (VStr ("PT"
                        +:+ String (ascii_of_nat (48 + Z.to_nat tens))
                              (String (ascii_of_nat (48 + Z.to_nat units)) "M")))).
Proof.
  intros Hp st3 now.
  pose proof (ActivateRole_submits_body req st p st2 evs2 Hp) as Hs.
  cbn zeta in Hs. fold st3 in Hs.
  assert ((lift_world time_Now st3).1.1 = now) as Hnow.
  { unfold lift_world, now. by destruct (time_Now (world st3)). }
  rewrite Hnow in Hs.
  eexists. split; [exact Hs |].
  unfold scheduleInfo_field, expiration_field, scheduleInfo_field.
  rewrite activationBody_property by done.
  do 3 (split; [reflexivity |]). split.
  { intros Hd.
    change (Some (VStr ("PT" +:+ fmt_d (ActivationRequest.Duration req) +:+ "M"))
            = Some (VStr "PT90M")).
    by rewrite Hd. }
  split; [exact fmt_d_digit |].
  split; [exact fmt_d_step |].
  split; [exact fmt_d_negative |].
  intros d tens units Hd Hrange -> ->.
  change (Some (VStr ("PT" +:+ fmt_d (ActivationRequest.Duration req) +:+ "M"))
          = Some (VStr ("PT"
                        +:+ String (ascii_of_nat (48 + Z.to_nat (d `div` 10)))
                              (String (ascii_of_nat (48 + Z.to_nat (d `mod` 10)))
                                 "M")))).
  rewrite Hd, fmt_d_step by lia.
  rewrite !fmt_d_digit
    by (split; [try apply Z.div_pos; try apply Z.mod_pos_bound; lia
               | try apply Z.div_lt_upper_bound; try apply Z.mod_pos_bound; lia]).
  done.
Qed.

(** *** Role selection *)

Lemma SelectRole_interactive (r1 r2 : EligibleRole.t) (rs : list EligibleRole.t)
    (st : state) :
  chooser_runs (SelectRole (r1 :: r2 :: rs) false st).2
  = [EvChooser (r1 :: r2 :: rs) "Select role to activate"].
Proof.
  unfold SelectRole, bind, emit, lift_world.
  destruct (tea_Run _ _ _) as [[m|err] w]; cbn; [| done].
  destruct (selectorModel.cancelled m); [done |].
  by destruct (selectorModel.selected m).
Qed.

(** C9. A single candidate is returned as the selection, in either mode,
    without a run of the interactive chooser; two or more candidates in
    non-interactive mode give an error without any interaction; no
    candidate gives an error. *)
Theorem SelectRole_without_chooser :
  (forall (role : EligibleRole.t) (nonInteractive : bool) (st : state),
      let out := SelectRole [role] nonInteractive st in
      out.1.1 = Ok role /\ out.1.2 = st /\ chooser_runs out.2 = [])
  /\ (forall (r1 r2 : EligibleRole.t) (rs : list EligibleRole.t) (st : state),
        SelectRole (r1 :: r2 :: rs) true st
        = (Err "multiple roles available but running in non-interactive mode",
           st, []))
  /\ (forall (nonInteractive : bool) (st : state),
        SelectRole [] nonInteractive st
        = (Err "no eligible roles available", st, [])).
Proof. by repeat split. Qed.

(** *** Strings *)

Lemma prefix_occurs (sub s : string) :
  strings_HasPrefix s sub = true <-> exists b, s = sub +:+ b.
Proof.
  revert s. induction sub as [|c sub IH]; intros s; cbn.
  - split; [intros _; by exists s | done].
  - destruct s as [|d s];
      [split; [done | intros [b Hb]; cbn in Hb; discriminate] |].
    rewrite andb_true_iff, bool_decide_eq_true, IH. split.
    + intros [-> [b ->]]. by exists b.
    + intros [b Hb]. inversion Hb. split; [done | by exists b].
Qed.

Lemma strings_Contains_occurs (s sub : string) :
  strings_Contains s sub = true <-> occurs_in sub s.
Proof.
  unfold occurs_in. induction s as [|c s IH]; cbn [strings_Contains].
  - rewrite orb_false_r, prefix_occurs. split.
    + intros [b Hb]. by exists "", b.
    + intros [[|x a] [b Hb]]; [by exists b | done].
  - rewrite orb_true_iff, prefix_occurs, IH. split.
    + intros [[b Hb] | (a & b & Hab)]; [by exists "", b |].
      exists (String c a), b. cbn. by rewrite Hab.
    + intros ([|x a] & b & Hab); [left; by exists b |].
      right. exists a, b. by injection Hab.
Qed.

Lemma strings_Split_nonempty (s : string) (sep : ascii) :
  strings_Split s sep <> [].
Proof.
  destruct s as [|c s]; cbn; [done |].
  destruct (decide (c = sep)); [done |]. by destruct (strings_Split s sep).
Qed.

Lemma append_nil_l (s : string) : "" +:+ s = s.
Proof. reflexivity. Qed.

Lemma append_cons (c : ascii) (a b : string) :
  String c a +:+ b = String c (a +:+ b).
Proof. reflexivity. Qed.

Lemma strings_Split_app (pre s : string) (sep : ascii) :
  strings_Split (pre +:+ String sep s) sep
  = strings_Split pre sep ++ strings_Split s sep.
Proof.
  induction pre as [|c pre IH]; rewrite ?append_nil_l, ?append_cons; cbn.
  - by rewrite decide_True.
  - rewrite IH. destruct (decide (c = sep)); [done |].
    pose proof (strings_Split_nonempty pre sep).
    by destruct (strings_Split pre sep).
Qed.

Lemma strings_Split_whole (s : string) (sep : ascii) :
  (forall a b, s <> a +:+ String sep b) -> strings_Split s sep = [s].
Proof.
  induction s as [|c s IH]; intros Hno; cbn; [done |].
  destruct (decide (c = sep)) as [-> | Hne].
  - by destruct (Hno "" s).
  - rewrite IH; [done |]. intros a b ->. by destruct (Hno (String c a) b).
Qed.

(** *** Path helpers *)

Lemma extractLastSegment_last (path : string) :
  last (strings_Split path "/") = Some (extractLastSegment path).
Proof.
  unfold extractLastSegment.
  pose proof (strings_Split_nonempty path "/") as Hne.
  destruct (strings_Split path "/") as [|h t] eqn:E; [done |].
  rewrite decide_True by (cbn; lia).
  destruct (last (h :: t)) eqn:El; [done |].
  by apply last_None in El.
Qed.

Lemma extractLastSegment_segment (pre seg : string) :
  (forall a b, seg <> a +:+ String "/" b) ->
  extractLastSegment (pre +:+ String "/" seg) = seg.
Proof.
  intros Hseg.
  pose proof (extractLastSegment_last (pre +:+ String "/" seg)) as Hl.
  rewrite strings_Split_app, (strings_Split_whole seg) in Hl by done.
  rewrite last_snoc in Hl. by injection Hl as <-.
Qed.

Lemma extractScopeName_loop_cons (parts : list string) (i : nat)
    (part : string) (todo : list string) :
  extractScopeName_loop parts i (part :: todo) =
  if bool_decide (part = "subscriptions")
     && bool_decide (i + 1 < length parts)%nat
  then parts !! (i + 1)%nat
  else if bool_decide (part = "resourceGroups")
          && bool_decide (i + 1 < length parts)%nat
  then parts !! (i + 1)%nat
  else if bool_decide (part = "managementGroups")
          && bool_decide (i + 1 < length parts)%nat
  then parts !! (i + 1)%nat
  else extractScopeName_loop parts (i + 1) todo.
Proof. reflexivity. Qed.

Lemma extractScopeName_loop_found (parts pre : list string)
    (kw next : string) (post : list string) (done_ : list string) :
  parts = done_ ++ pre ++ kw :: next :: post ->
  kw ∈ scope_keywords ->
  (forall x, x ∈ pre -> x ∉ scope_keywords) ->
  extractScopeName_loop parts (length done_) (pre ++ kw :: next :: post)
  = Some next.
Proof.
  revert done_. induction pre as [|x pre IH]; intros done_ Hparts Hkw Hpre.
  - cbn [app]. rewrite extractScopeName_loop_cons.
    assert (length done_ + 1 < length parts)%nat as Hlen.
    { rewrite Hparts, !length_app. cbn. lia. }
    assert (parts !! (length done_ + 1)%nat = Some next) as Hnext.
    { rewrite Hparts. rewrite lookup_app_r by lia.
      by replace (length done_ + 1 - length done_)%nat with 1%nat by lia. }
    rewrite (bool_decide_eq_true_2 _ Hlen), !andb_true_r, Hnext.
    unfold scope_keywords in Hkw. rewrite !elem_of_cons, elem_of_nil in Hkw.
    by destruct Hkw as [-> | [-> | [-> | []]]].
  - cbn [app]. rewrite extractScopeName_loop_cons.
    assert (x ∉ scope_keywords) as Hx by apply Hpre, list_elem_of_here.
    unfold scope_keywords in Hx. rewrite !not_elem_of_cons in Hx.
    destruct Hx as (Hx1 & Hx2 & Hx3 & _).
    rewrite !(bool_decide_eq_false_2 (x = _)) by done.
    cbn [andb].
    replace (length done_ + 1)%nat with (length (done_ ++ [x])).
    2:{ rewrite length_app. cbn. lia. }
    apply IH; [by rewrite <- app_assoc | done |].
    intros y Hy. by apply Hpre, list_elem_of_further.
Qed.

Lemma extractScopeName_found (scope : string) (pre : list string)
    (kw next : string) (post : list string) :
  strings_Split scope "/" = pre ++ kw :: next :: post ->
  kw ∈ scope_keywords ->
  (forall x, x ∈ pre -> x ∉ scope_keywords) ->
  extractScopeName scope = next.
Proof.
  intros Hsplit Hkw Hpre. unfold extractScopeName.
  pose proof (extractScopeName_loop_found (strings_Split scope "/") pre kw
                next post [] Hsplit Hkw Hpre) as Hl.
  cbn [length] in Hl. rewrite <- Hsplit in Hl. by rewrite Hl.
Qed.

(** *** Paginated fetch *)

Lemma appendPage_eq (allRoles : list EligibleRole.t) (page : list Item.t) :
  appendPage allRoles page = allRoles ++ map eligibleRoleOfItem page.
Proof.
  unfold appendPage. revert allRoles.
  induction page as [|item page IH]; intros allRoles; cbn.
  - by rewrite app_nil_r.
  - by rewrite IH, <- app_assoc.
Qed.

Lemma rows_of_cons (response : Response.t) (pages : list Response.t) :
  rows_of (response :: pages)
  = map eligibleRoleOfItem (Response.Value response) ++ rows_of pages.
Proof. unfold rows_of. cbn. by rewrite map_app. Qed.

Lemma fetchEligibleRoles_loop_S (fuel : nat) (url : string)
    (allRoles : list EligibleRole.t) (st : state) :
  url <> "" ->
  fetchEligibleRoles_loop (S fuel) url allRoles st =
  bind (runAzCommand (GET_args url))
    (fun r =>
       match r with
       | Err err => ret (Some (Err err))
       | Ok output =>
           match json_Unmarshal_instances output with
           | Err err => ret (Some (Err ("failed to parse response: " +:+ err)))
           | Ok response =>
               fetchEligibleRoles_loop fuel (Response.NextLink response)
                 (appendPage allRoles (Response.Value response))
           end
       end) st.
Proof. intros Hurl. cbn. by rewrite bool_decide_eq_true_2. Qed.

Lemma fetchEligibleRoles_loop_end (fuel : nat) (allRoles : list EligibleRole.t)
    (st : state) :
  fetchEligibleRoles_loop fuel "" allRoles st = (Some (Ok allRoles), st, []).
Proof. by destruct fuel. Qed.

(** The loop follows a chain of pages to its end and returns the rows of
    all of them, with one request per page, when the fuel covers the
    chain. *)
Lemma fetchEligibleRoles_loop_chain (url : string) (st : state)
    (pages : list Response.t) (st' : state) (evs : list event) :
  pages_from url st pages st' evs ->
  forall (fuel : nat) (allRoles : list EligibleRole.t),
    (length pages <= fuel)%nat ->
    fetchEligibleRoles_loop fuel url allRoles st
    = (Some (Ok (allRoles ++ rows_of pages)), st', evs).
Proof.
  induction 1 as [st | url st output st1 response pages st2 evs Hurl Hrun Hparse
                         Hrest IH]; intros fuel allRoles Hfuel.
  - rewrite fetchEligibleRoles_loop_end. unfold rows_of. cbn.
    by rewrite app_nil_r.
  - destruct fuel as [|fuel]; [cbn in Hfuel; lia |].
    rewrite fetchEligibleRoles_loop_S by done.
    unfold bind. rewrite Hrun, Hparse.
    rewrite (IH fuel) by (cbn in Hfuel; lia).
    by rewrite appendPage_eq, rows_of_cons, <- app_assoc.
Qed.

Lemma pages_from_requests (url : string) (st : state)
    (pages : list Response.t) (st' : state) (evs : list event) :
  pages_from url st pages st' evs ->
  length (az_calls evs) = length pages /\ length evs = length pages.
Proof.
  induction 1 as [| ? ? ? ? ? ? ? ? ? ? ? ? [IH1 IH2]]; [done |].
  change (S (length (az_calls evs)) = S (length pages)
          /\ S (length evs) = S (length pages)).
  by rewrite IH1, IH2.
Qed.

Lemma scopeURL_nonempty (scope : string) : scopeURL scope <> "".
Proof. unfold scopeURL. by case_bool_decide. Qed.

Lemma getEligibleRolesAtScope_eq (fuel : nat) (scope : string) :
  getEligibleRolesAtScope fuel scope = fetchEligibleRoles fuel (scopeURL scope).
Proof. reflexivity. Qed.

(** C5. A scope query follows the continuation links until one is empty
    and returns the rows of every page, with one request per page. For a
    chain of three pages, the last without continuation link, it issues
    exactly three requests and returns the rows of the three pages. *)
Theorem pagination_follows_nextLink (fuel : nat) (scope : string) (st0 : state) :
  (forall pages st' evs,
      pages_from (scopeURL scope) st0 pages st' evs ->
      (length pages <= fuel)%nat ->
      getEligibleRolesAtScope fuel scope st0
      = (Some (Ok (rows_of pages)), st', evs)
      /\ length (az_calls evs) = length pages)
  /\ (forall out1 st1 evs1 p1 out2 st2 evs2 p2 out3 st3 evs3 p3,
        runAzCommand (GET_args (scopeURL scope)) st0 = (Ok out1, st1, evs1) ->
        json_Unmarshal_instances out1 = Ok p1 ->
        Response.NextLink p1 <> "" ->
        runAzCommand (GET_args (Response.NextLink p1)) st1
        = (Ok out2, st2, evs2) ->
        json_Unmarshal_instances out2 = Ok p2 ->
        Response.NextLink p2 <> "" ->
        runAzCommand (GET_args (Response.NextLink p2)) st2
        = (Ok out3, st3, evs3) ->
        json_Unmarshal_instances out3 = Ok p3 ->
        Response.NextLink p3 = "" ->
        (3 <= fuel)%nat ->
        getEligibleRolesAtScope fuel scope st0
        = (Some (Ok (map eligibleRoleOfItem
                       (Response.Value p1 ++ Response.Value p2
                        ++ Response.Value p3))),
           st3,
           [EvAz (GET_args (scopeURL scope));
            EvAz (GET_args (Response.NextLink p1));
            EvAz (GET_args (Response.NextLink p2))])).
Proof.
  split.
  - intros pages st' evs Hchain Hfuel. split.
    + rewrite getEligibleRolesAtScope_eq. unfold fetchEligibleRoles.
      by rewrite (fetchEligibleRoles_loop_chain _ _ _ _ _ Hchain).
    + by apply (pages_from_requests _ _ _ _ _ Hchain).
  - intros out1 st1 evs1 p1 out2 st2 evs2 p2 out3 st3 evs3 p3
      H1 U1 N1 H2 U2 N2 H3 U3 N3 Hfuel.
    assert (evs1 = [EvAz (GET_args (scopeURL scope))]) as ->.
    { rewrite <- (runAzCommand_events _ st0). by rewrite H1. }
    assert (evs2 = [EvAz (GET_args (Response.NextLink p1))]) as ->.
    { rewrite <- (runAzCommand_events _ st1). by rewrite H2. }
    assert (evs3 = [EvAz (GET_args (Response.NextLink p2))]) as ->.
    { rewrite <- (runAzCommand_events _ st2). by rewrite H3. }
    assert (pages_from (scopeURL scope) st0 [p1; p2; p3] st3
              [EvAz (GET_args (scopeURL scope));
               EvAz (GET_args (Response.NextLink p1));
               EvAz (GET_args (Response.NextLink p2))]) as Hchain.
    { eapply pages_next; [apply scopeURL_nonempty | exact H1 | exact U1 |].
      eapply pages_next; [exact N1 | exact H2 | exact U2 |].
      eapply pages_next; [exact N2 | exact H3 | exact U3 |].
      rewrite N3. apply pages_end. }
    rewrite getEligibleRolesAtScope_eq. unfold fetchEligibleRoles.
    rewrite (fetchEligibleRoles_loop_chain _ _ _ _ _ Hchain) by done.
    unfold rows_of. cbn. by rewrite app_nil_r.
Qed.

(** *** Deduplication *)

Lemma foldl_dedup_step (seen : gmap string bool)
    (uniqueRoles l : list EligibleRole.t) :
  (foldl dedup_step (seen, uniqueRoles) l).2 = uniqueRoles ++ dedup_kept seen l.
Proof.
  revert seen uniqueRoles.
  induction l as [|role l IH]; intros seen uniqueRoles; cbn.
  - by rewrite app_nil_r.
  - destruct (default false (seen !! EligibleRole.ID role)); cbn.
    + apply IH.
    + by rewrite IH, <- app_assoc.
Qed.

Lemma deduplicate_eq (allRoles : list EligibleRole.t) :
  deduplicate allRoles = dedup_kept ∅ allRoles.
Proof. unfold deduplicate. by rewrite foldl_dedup_step. Qed.

Lemma seen_insert (seen : gmap string bool) (k k' : string) :
  default false (<[k := true]> seen !! k')
  = if bool_decide (k = k') then true else default false (seen !! k').
Proof.
  case_bool_decide as Hk.
  - subst. by rewrite lookup_insert_eq.
  - by rewrite lookup_insert_ne.
Qed.

Lemma dedup_kept_unseen (seen : gmap string bool) (l : list EligibleRole.t)
    (role : EligibleRole.t) :
  role ∈ dedup_kept seen l ->
  default false (seen !! EligibleRole.ID role) = false.
Proof.
  revert seen. induction l as [|x l IH]; intros seen; cbn.
  - by rewrite elem_of_nil.
  - destruct (default false (seen !! EligibleRole.ID x)) eqn:Hx; [apply IH |].
    rewrite elem_of_cons. intros [-> | Hin]; [done |].
    apply IH in Hin. rewrite seen_insert in Hin.
    by case_bool_decide.
Qed.

Lemma dedup_kept_NoDup (seen : gmap string bool) (l : list EligibleRole.t) :
  NoDup (EligibleRole.ID <$> dedup_kept seen l).
Proof.
  revert seen. induction l as [|x l IH]; intros seen; cbn.
  - constructor.
  - destruct (default false (seen !! EligibleRole.ID x)); [apply IH |].
    cbn. constructor; [| apply IH].
    rewrite list_elem_of_fmap. intros (y & Hy & Hin).
    apply dedup_kept_unseen in Hin. rewrite seen_insert, Hy in Hin.
    by rewrite bool_decide_eq_true_2 in Hin.
Qed.

Lemma dedup_kept_sublist (seen : gmap string bool) (l : list EligibleRole.t) :
  sublist (dedup_kept seen l) l.
Proof.
  revert seen. induction l as [|x l IH]; intros seen; cbn.
  - constructor.
  - destruct (default false (seen !! EligibleRole.ID x)).
    + by apply sublist_cons.
    + by apply sublist_skip.
Qed.

Lemma dedup_kept_covers (seen : gmap string bool) (l : list EligibleRole.t)
    (role : EligibleRole.t) :
  role ∈ l ->
  default false (seen !! EligibleRole.ID role) = true
  \/ EligibleRole.ID role ∈ EligibleRole.ID <$> dedup_kept seen l.
Proof.
  revert seen. induction l as [|x l IH]; intros seen; cbn.
  - by rewrite elem_of_nil.
  - rewrite elem_of_cons.
    destruct (default false (seen !! EligibleRole.ID x)) eqn:Hx.
    + intros [-> | Hin]; [by left | by apply IH].
    + intros [-> | Hin]; [right; cbn; apply list_elem_of_here |].
      destruct (IH (<[EligibleRole.ID x := true]> seen) Hin) as [Hseen | Hk].
      * rewrite seen_insert in Hseen. case_bool_decide as Hid.
        -- right. cbn. rewrite Hid. apply list_elem_of_here.
        -- by left.
      * right. cbn. by apply list_elem_of_further.
Qed.

Lemma dedup_kept_first (seen : gmap string bool) (l : list EligibleRole.t)
    (role : EligibleRole.t) :
  role ∈ dedup_kept seen l ->
  exists before after,
    l = before ++ role :: after
    /\ forall x, x ∈ before -> EligibleRole.ID x <> EligibleRole.ID role.
Proof.
  revert seen. induction l as [|x l IH]; intros seen; cbn.
  - by rewrite elem_of_nil.
  - destruct (default false (seen !! EligibleRole.ID x)) eqn:Hx.
    + intros Hin. pose proof (dedup_kept_unseen _ _ _ Hin) as Hrole.
      destruct (IH seen Hin) as (before & after & -> & Hbefore).
      exists (x :: before), after. split; [done |].
      intros y. rewrite elem_of_cons. intros [-> | Hy]; [| by apply Hbefore].
      intros Hid. congruence.
    + rewrite elem_of_cons. intros [-> | Hin].
      * exists [], l. split; [done |]. intros y. by rewrite elem_of_nil.
      * pose proof (dedup_kept_unseen _ _ _ Hin) as Hrole.
        rewrite seen_insert in Hrole.
        destruct (IH _ Hin) as (before & after & -> & Hbefore).
        exists (x :: before), after. split; [done |].
        intros y. rewrite elem_of_cons. intros [-> | Hy]; [| by apply Hbefore].
        by case_bool_decide.
Qed.

(** *** The aggregator *)

Lemma subscriptions_loop_scopeQueries (fuel : nat)
    (subscriptions : list subscription.t) :
  forall (allRoles : list EligibleRole.t) (st : state),
    subscriptions_loop fuel subscriptions allRoles st =
    let '(o, st', evs) :=
      scopeQueries fuel
        (map (fun sub => "/subscriptions/" +:+ subscription.ID sub)
           subscriptions) st in
    (match o with
     | Some rs => Some (allRoles ++ succeeded_rows rs)
     | None => None
     end, st', evs).
Proof.
  induction subscriptions as [|sub subscriptions IH]; intros allRoles st.
  - cbn. unfold ret, succeeded_rows. cbn. by rewrite app_nil_r.
  - cbn [subscriptions_loop scopeQueries map]. unfold bind.
    destruct (getEligibleRolesAtScope fuel _ st) as [[[[roles|err]|] st1] evs1];
      [| | by unfold ret].
    + rewrite IH.
      destruct (scopeQueries fuel _ st1) as [[[rs|] st2] evs2]; unfold ret;
        [| by rewrite app_nil_r].
      unfold succeeded_rows. cbn. by rewrite !app_nil_r, app_assoc.
    + rewrite IH.
      destruct (scopeQueries fuel _ st1) as [[[rs|] st2] evs2]; unfold ret;
        by rewrite !app_nil_r.
Qed.

(** The aggregator in terms of its scope queries. *)
Lemma GetEligibleRoleAssignments_eq (fuel : nat) (st : state) :
  GetEligibleRoleAssignments fuel st =
  let '(r, st1, evs1) := getSubscriptions st in
  match r with
  | Err err => (Some (Err ("failed to get subscriptions: " +:+ err)), st1, evs1)
  | Ok subscriptions =>
      let '(o, st2, evs2) := scopeQueries fuel (scopes_of subscriptions) st1 in
      (match o with
       | Some rs => Some (Ok (deduplicate (succeeded_rows rs)))
       | None => None
       end, st2, evs1 ++ evs2)
  end.
Proof.
  unfold GetEligibleRoleAssignments, bind.
  destruct (getSubscriptions st) as [[[subscriptions|err] st1] evs1];
    [| by unfold ret; rewrite app_nil_r].
  unfold scopes_of. cbn [scopeQueries]. unfold bind.
  destruct (getEligibleRolesAtScope fuel "" st1) as [[[r0|] st2] evs2];
    [| by unfold ret; rewrite app_nil_r].
  rewrite subscriptions_loop_scopeQueries.
  destruct (scopeQueries fuel _ st2) as [[[rs|] st3] evs3]; unfold ret;
    rewrite ?app_nil_r; [| done].
  unfold succeeded_rows. cbn. by destruct r0.
Qed.

(** C3. [GetEligibleRoleAssignments] returns an error exactly when the
    enumeration of the subscriptions fails. Once the subscriptions are
    listed, the tenant-level query and the query of each subscription are
    made in turn, the failed ones contribute no row, and the result is the
    deduplicated concatenation of the rows of those that succeeded. *)
Theorem aggregator_failure_semantics (fuel : nat) (st : state) :
  (forall err st1 evs1,
      getSubscriptions st = (Err err, st1, evs1) ->
      GetEligibleRoleAssignments fuel st
      = (Some (Err ("failed to get subscriptions: " +:+ err)), st1, evs1))
  /\ (forall subscriptions st1 evs1 rs st2 evs2,
        getSubscriptions st = (Ok subscriptions, st1, evs1) ->
        scopeQueries fuel (scopes_of subscriptions) st1 = (Some rs, st2, evs2) ->
        GetEligibleRoleAssignments fuel st
        = (Some (Ok (deduplicate (succeeded_rows rs))), st2, evs1 ++ evs2))
  /\ (forall err st' evs,
        GetEligibleRoleAssignments fuel st = (Some (Err err), st', evs) ->
        is_Err (getSubscriptions st).1.1 = true).
Proof.
  rewrite GetEligibleRoleAssignments_eq. repeat split.
  - intros err st1 evs1 Hsubs. by rewrite Hsubs.
  - intros subscriptions st1 evs1 rs st2 evs2 Hsubs Hq.
    rewrite Hsubs. lazy beta iota. by rewrite Hq.
  - intros err st' evs.
    destruct (getSubscriptions st) as [[[subscriptions|e] st1] evs1]; [| done].
    by destruct (scopeQueries fuel _ st1) as [[[rs|] st2] evs2].
Qed.

Lemma GetEligibleRoleAssignments_NoDup (fuel : nat) (st : state)
    (roles : list EligibleRole.t) (st' : state) (evs : list event) :
  GetEligibleRoleAssignments fuel st = (Some (Ok roles), st', evs) ->
  NoDup (EligibleRole.ID <$> roles).
Proof.
  rewrite GetEligibleRoleAssignments_eq.
  destruct (getSubscriptions st) as [[[subscriptions|e] st1] evs1]; [| done].
  destruct (scopeQueries fuel _ st1) as [[[rs|] st2] evs2]; [| done].
  intros [= <- _ _]. rewrite deduplicate_eq. apply dedup_kept_NoDup.
Qed.

(** C4. Deduplication keeps, for each [ID], the first row that has it:
    the result has no two elements with the same [ID], is a sublist of the
    accumulated rows (so first-seen order is kept), represents every
    accumulated [ID], and each of its elements is the first accumulated row
    with its [ID]. The aggregator returns the deduplication of the rows of
    its scope queries, so no list it returns has an [ID] twice. *)
Theorem deduplicate_first_seen :
  (forall allRoles,
      let roles := deduplicate allRoles in
      NoDup (EligibleRole.ID <$> roles)
      /\ sublist roles allRoles
      /\ (forall role, role ∈ allRoles ->
                       EligibleRole.ID role ∈ EligibleRole.ID <$> roles)
      /\ (forall role, role ∈ roles ->
            exists before after,
              allRoles = before ++ role :: after
              /\ forall x, x ∈ before ->
                           EligibleRole.ID x <> EligibleRole.ID role))
  /\ (forall fuel st subscriptions st1 evs1 rs st2 evs2,
        getSubscriptions st = (Ok subscriptions, st1, evs1) ->
        scopeQueries fuel (scopes_of subscriptions) st1 = (Some rs, st2, evs2) ->
        GetEligibleRoleAssignments fuel st
        = (Some (Ok (deduplicate (succeeded_rows rs))), st2, evs1 ++ evs2))
  /\ (forall fuel st roles st' evs,
        GetEligibleRoleAssignments fuel st = (Some (Ok roles), st', evs) ->
        NoDup (EligibleRole.ID <$> roles)
        /\ exists rs, roles = deduplicate (succeeded_rows rs)).
Proof.
  split; [| split].
  - intros allRoles roles. subst roles. rewrite deduplicate_eq.
    split; [apply dedup_kept_NoDup |].
    split; [apply dedup_kept_sublist |].
    split; [| intros role; apply dedup_kept_first].
    intros role Hin.
    by destruct (dedup_kept_covers ∅ _ _ Hin) as [Hseen | Hk].
  - intros fuel st subscriptions st1 evs1 rs st2 evs2 Hsubs Hq.
    rewrite GetEligibleRoleAssignments_eq, Hsubs. lazy beta iota.
    by rewrite Hq.
  - intros fuel st roles st' evs Hrun.
    split; [by eapply GetEligibleRoleAssignments_NoDup |].
    rewrite GetEligibleRoleAssignments_eq in Hrun.
    destruct (getSubscriptions st) as [[[subscriptions|e] st1] evs1]; [| done].
    destruct (scopeQueries fuel _ st1) as [[[rs|] st2] evs2]; [| done].
    injection Hrun as <- _ _. by exists rs.
Qed.

(** *** Rows *)

(** The role of an item, field by field. *)
Lemma eligibleRoleOfItem_eq (item : Item.t) :
  eligibleRoleOfItem item =
  let props := Item.Properties item in
  {| EligibleRole.ID := Item.ID item;
     EligibleRole.RoleDefinitionID := Item.RoleDefinitionID props;
     EligibleRole.RoleName :=
       match Item.ExpandedProperties props with
       | Some ep =>
           RoleDefinitionInfo.DisplayName (ExpandedProperties.RoleDefinition ep)
       | None => extractLastSegment (Item.RoleDefinitionID props)
       end;
     EligibleRole.Scope := Item.Scope props;
     EligibleRole.ScopeName :=
       match Item.ExpandedProperties props with
       | Some ep => ScopeInfo.DisplayName (ExpandedProperties.Scope ep)
       | None => extractScopeName (Item.Scope props)
       end;
     EligibleRole.ScopeType :=
       match Item.ExpandedProperties props with
       | Some ep => ScopeInfo.Type_ (ExpandedProperties.Scope ep)
       | None => detectScopeType (Item.Scope props)
       end;
     EligibleRole.PrincipalID := Item.PrincipalID props;
     EligibleRole.Status := Item.Status props;
     EligibleRole.MemberType := Item.MemberType props;
     EligibleRole.StartDateTime :=
       if bool_decide (Item.StartDateTime props <> "") then
         default Time_zero (time_Parse_RFC3339 (Item.StartDateTime props))
       else Time_zero;
     EligibleRole.EndDateTime :=
       match Item.EndDateTime props with
       | Some e => if bool_decide (e <> "") then time_Parse_RFC3339 e else None
       | None => None
       end;
     EligibleRole.MaxDuration := 480;
     EligibleRole.EligibilityID := Item.ID item;
     EligibleRole.ExpandedProperties := Item.ExpandedProperties props |}.
Proof.
  unfold eligibleRoleOfItem.
  destruct item as [id name ty [rd sc pr status mt start e ep]]. cbn.
  destruct (bool_decide (start <> "")), (time_Parse_RFC3339 start),
    e as [e|], ep as [ep|]; cbn; try done;
    destruct (bool_decide (e <> "")), (time_Parse_RFC3339 e); done.
Qed.

Lemma eligibleRoleOfItem_ids (item : Item.t) :
  EligibleRole.ID (eligibleRoleOfItem item) = Item.ID item
  /\ EligibleRole.EligibilityID (eligibleRoleOfItem item) = Item.ID item.
Proof.
  by rewrite eligibleRoleOfItem_eq.
Qed.

Lemma activeRoleOfItem_EligibilityID (item : Item.t) :
  EligibleRole.EligibilityID (activeRoleOfItem item) = "".
Proof. unfold activeRoleOfItem. by destruct (Item.ExpandedProperties _). Qed.

Lemma fetchEligibleRoles_loop_Forall (P : EligibleRole.t -> Prop) :
  (forall item, P (eligibleRoleOfItem item)) ->
  forall fuel url allRoles st rows st' evs,
    Forall P allRoles ->
    fetchEligibleRoles_loop fuel url allRoles st = (Some (Ok rows), st', evs) ->
    Forall P rows.
Proof.
  intros HP. induction fuel as [|fuel IH];
    intros url allRoles st rows st' evs Hacc Hrun;
    destruct (decide (url = "")) as [-> | Hurl].
  - rewrite fetchEligibleRoles_loop_end in Hrun. by injection Hrun as <- _ _.
  - cbn in Hrun. by rewrite bool_decide_eq_true_2 in Hrun.
  - rewrite fetchEligibleRoles_loop_end in Hrun. by injection Hrun as <- _ _.
  - rewrite fetchEligibleRoles_loop_S in Hrun by done. unfold bind in Hrun.
    destruct (runAzCommand _ st) as [[[output|err] st1] evs1]; [| done].
    destruct (json_Unmarshal_instances output) as [response|err]; [| done].
    destruct (fetchEligibleRoles_loop fuel _ _ st1) as [[o st2] evs2] eqn:E.
    injection Hrun as -> _ _.
    eapply IH; [| exact E].
    rewrite appendPage_eq. apply Forall_app. split; [done |].
    apply Forall_forall. intros role Hin.
    apply list_elem_of_fmap in Hin as (item & -> & _). apply HP.
Qed.

Lemma scopeQueries_Forall (P : EligibleRole.t -> Prop) (fuel : nat) :
  (forall item, P (eligibleRoleOfItem item)) ->
  forall scopes st rs st' evs,
    scopeQueries fuel scopes st = (Some rs, st', evs) ->
    Forall P (succeeded_rows rs).
Proof.
  intros HP. induction scopes as [|scope scopes IH]; intros st rs st' evs Hq.
  - injection Hq as <- _ _. constructor.
  - cbn [scopeQueries] in Hq. unfold bind in Hq.
    destruct (getEligibleRolesAtScope fuel scope st) as [[[r|] st1] evs1] eqn:E;
      [| done].
    destruct (scopeQueries fuel scopes st1) as [[[rs'|] st2] evs2] eqn:E';
      [| done].
    injection Hq as <- _ _.
    unfold succeeded_rows. cbn. apply Forall_app. split; [| by eapply IH].
    destruct r as [rows|err]; [| constructor].
    eapply (fetchEligibleRoles_loop_Forall P HP); [| exact E]. constructor.
Qed.

Lemma sublist_Forall (P : EligibleRole.t -> Prop) (l k : list EligibleRole.t) :
  sublist l k -> Forall P k -> Forall P l.
Proof.
  intros Hsub Hk. apply Forall_forall. intros x Hx.
  eapply Forall_forall; [exact Hk |]. by eapply elem_of_sublist.
Qed.

(** Every role the aggregator returns is the mapping of an item. *)
Lemma GetEligibleRoleAssignments_Forall (P : EligibleRole.t -> Prop) :
  (forall item, P (eligibleRoleOfItem item)) ->
  forall fuel st roles st' evs,
    GetEligibleRoleAssignments fuel st = (Some (Ok roles), st', evs) ->
    Forall P roles.
Proof.
  intros HP fuel st roles st' evs. rewrite GetEligibleRoleAssignments_eq.
  destruct (getSubscriptions st) as [[[subscriptions|e] st1] evs1]; [| done].
  destruct (scopeQueries fuel _ st1) as [[[rs|] st2] evs2] eqn:Hq; [| done].
  intros [= <- _ _]. rewrite deduplicate_eq.
  eapply sublist_Forall; [apply dedup_kept_sublist |].
  by eapply scopeQueries_Forall.
Qed.

Lemma GetActiveRoleAssignments_rows (st : state)
    (roles : list EligibleRole.t) (st' : state) (evs : list event) :
  GetActiveRoleAssignments st = (Ok roles, st', evs) ->
  exists response, roles = map activeRoleOfItem (Response.Value response).
Proof.
  unfold GetActiveRoleAssignments, bind.
  destruct (runAzCommand _ st) as [[[output|err] st1] evs1]; [| done].
  destruct (json_Unmarshal_instances output) as [response|err]; [| done].
  intros [= <- _ _]. exists response.
  generalize (Response.Value response). intros items.
  assert (forall acc,
             foldl (fun roles item => roles ++ [activeRoleOfItem item]) acc items
             = acc ++ map activeRoleOfItem items) as Hfold.
  { induction items as [|item items IH]; intros acc; cbn.
    - by rewrite app_nil_r.
    - by rewrite IH, <- app_assoc. }
  apply Hfold.
Qed.

(** C10. The role built from an item of an eligibility page has both
    its [ID] and its [EligibilityID] set to the [id] of the item, so every
    role [GetEligibleRoleAssignments] returns has its [EligibilityID] equal
    to its [ID] and the returned list has no [EligibilityID] twice either;
    the roles of [GetActiveRoleAssignments] have the empty [EligibilityID]
    of a field that is not set. *)
Theorem EligibilityID_is_ID :
  (forall item,
      EligibleRole.ID (eligibleRoleOfItem item) = Item.ID item
      /\ EligibleRole.EligibilityID (eligibleRoleOfItem item) = Item.ID item)
  /\ (forall fuel st roles st' evs,
        GetEligibleRoleAssignments fuel st = (Some (Ok roles), st', evs) ->
        Forall (fun role =>
                  EligibleRole.EligibilityID role = EligibleRole.ID role
                  /\ exists item,
                      EligibleRole.ID role = Item.ID item
                      /\ EligibleRole.EligibilityID role = Item.ID item)
          roles
        /\ NoDup (EligibleRole.EligibilityID <$> roles))
  /\ (forall item, EligibleRole.EligibilityID (activeRoleOfItem item) = "")
  /\ (forall st roles st' evs,
        GetActiveRoleAssignments st = (Ok roles, st', evs) ->
        Forall (fun role => EligibleRole.EligibilityID role = "") roles).
Proof.
  split; [apply eligibleRoleOfItem_ids |].
  split; [| split; [apply activeRoleOfItem_EligibilityID |]].
  - intros fuel st roles st' evs Hrun.
    assert (Forall (fun role =>
                EligibleRole.EligibilityID role = EligibleRole.ID role
                /\ exists item, EligibleRole.ID role = Item.ID item
                               /\ EligibleRole.EligibilityID role = Item.ID item)
              roles) as Hall.
    { eapply GetEligibleRoleAssignments_Forall; [| exact Hrun].
      intros item. destruct (eligibleRoleOfItem_ids item) as [Hid Heid].
      split; [congruence | by exists item]. }
    split; [exact Hall |].
    pose proof (GetEligibleRoleAssignments_NoDup fuel st roles st' evs Hrun)
      as Hnodup.
    replace (EligibleRole.EligibilityID <$> roles)
      with (EligibleRole.ID <$> roles); [done |].
    apply Forall_fmap_ext. eapply Forall_impl; [exact Hall |].
    by intros role [-> _].
  - intros st roles st' evs Hrun.
    destruct (GetActiveRoleAssignments_rows st roles st' evs Hrun)
      as [response ->].
    apply Forall_forall. intros role Hin.
    apply list_elem_of_fmap in Hin as (item & -> & _).
    apply activeRoleOfItem_EligibilityID.
Qed.

Lemma detectScopeType_cases (scope : string) :
  (occurs_in "/resourceGroups/" scope ->
   detectScopeType scope = "resourceGroup")
  /\ (~ occurs_in "/resourceGroups/" scope ->
      occurs_in "/managementGroups/" scope ->
      detectScopeType scope = "managementGroup")
  /\ (~ occurs_in "/resourceGroups/" scope ->
      ~ occurs_in "/managementGroups/" scope ->
      occurs_in "/subscriptions/" scope ->
      detectScopeType scope = "subscription")
  /\ (~ occurs_in "/resourceGroups/" scope ->
      ~ occurs_in "/managementGroups/" scope ->
      ~ occurs_in "/subscriptions/" scope ->
      detectScopeType scope = "unknown").
Proof.
  unfold detectScopeType. rewrite <- !strings_Contains_occurs.
  destruct (strings_Contains scope "/resourceGroups/"),
    (strings_Contains scope "/managementGroups/"),
    (strings_Contains scope "/subscriptions/"); naive_solver.
Qed.

(** C6. The role built from an item: a timestamp that does not parse is
    left out (zero start, no end) and the row is kept, so a fetch returns
    one role per item of every page; [MaxDuration] is 480; the three names
    are those of the expanded properties when the item has them, and are
    otherwise derived from the identifiers: the last path segment of the
    role definition id, the segment after the first keyword segment of the
    scope, and the kind of ["/.../"] segment that occurs in the scope. *)
Theorem row_mapping (item : Item.t) :
  let props := Item.Properties item in
  let role := eligibleRoleOfItem item in
  (time_Parse_RFC3339 (Item.StartDateTime props) = None ->
   EligibleRole.StartDateTime role = Time_zero)
  /\ (forall e, Item.EndDateTime props = Some e ->
                time_Parse_RFC3339 e = None ->
                EligibleRole.EndDateTime role = None)
  /\ (forall t, Item.StartDateTime props <> "" ->
                time_Parse_RFC3339 (Item.StartDateTime props) = Some t ->
                EligibleRole.StartDateTime role = t)
  /\ (forall e t, Item.EndDateTime props = Some e -> e <> "" ->
                  time_Parse_RFC3339 e = Some t ->
                  EligibleRole.EndDateTime role = Some t)
  /\ (forall fuel url st pages st' evs,
        pages_from url st pages st' evs ->
        (length pages <= fuel)%nat ->
        fetchEligibleRoles fuel url st
        = (Some (Ok (map eligibleRoleOfItem
                       (concat (map Response.Value pages)))), st', evs))
  /\ EligibleRole.MaxDuration role = 480%Z
  /\ (forall ep, Item.ExpandedProperties props = Some ep ->
        EligibleRole.RoleName role
        = RoleDefinitionInfo.DisplayName (ExpandedProperties.RoleDefinition ep)
        /\ EligibleRole.ScopeName role
           = ScopeInfo.DisplayName (ExpandedProperties.Scope ep)
        /\ EligibleRole.ScopeType role
           = ScopeInfo.Type_ (ExpandedProperties.Scope ep))
  /\ (Item.ExpandedProperties props = None ->
      EligibleRole.RoleName role
      = extractLastSegment (Item.RoleDefinitionID props)
      /\ EligibleRole.ScopeName role = extractScopeName (Item.Scope props)
      /\ EligibleRole.ScopeType role = detectScopeType (Item.Scope props))
  /\ (forall pre seg,
        (forall a b, seg <> a +:+ String "/" b) ->
        extractLastSegment (pre +:+ String "/" seg) = seg)
  /\ (forall scope pre kw next post,
        strings_Split scope "/" = pre ++ kw :: next :: post ->
        kw ∈ scope_keywords ->
        (forall x, x ∈ pre -> x ∉ scope_keywords) ->
        extractScopeName scope = next)
  /\ (forall scope,
        (occurs_in "/resourceGroups/" scope ->
         detectScopeType scope = "resourceGroup")
        /\ (~ occurs_in "/resourceGroups/" scope ->
            occurs_in "/managementGroups/" scope ->
            detectScopeType scope = "managementGroup")
        /\ (~ occurs_in "/resourceGroups/" scope ->
            ~ occurs_in "/managementGroups/" scope ->
            occurs_in "/subscriptions/" scope ->
            detectScopeType scope = "subscription")
        /\ (~ occurs_in "/resourceGroups/" scope ->
            ~ occurs_in "/managementGroups/" scope ->
            ~ occurs_in "/subscriptions/" scope ->
            detectScopeType scope = "unknown")).
Proof.
  intros props role. subst props role. rewrite eligibleRoleOfItem_eq.
  destruct item as [id name ty [rd sc pr status mt start e ep]].
  cbn [Item.Properties Item.StartDateTime Item.EndDateTime Item.ID
       Item.ExpandedProperties Item.RoleDefinitionID Item.Scope
       Item.PrincipalID Item.Status Item.MemberType
       EligibleRole.StartDateTime EligibleRole.EndDateTime
       EligibleRole.MaxDuration EligibleRole.RoleName EligibleRole.ScopeName
       EligibleRole.ScopeType].
  split; [intros ->; by case_bool_decide |].
  split; [intros e' -> ->; by case_bool_decide |].
  split; [intros t Hstart ->; by rewrite bool_decide_eq_true_2 |].
  split; [intros e' t -> Hne ->; by rewrite bool_decide_eq_true_2 |].
  split.
  { intros fuel url st pages st' evs Hchain Hfuel. unfold fetchEligibleRoles.
    by rewrite (fetchEligibleRoles_loop_chain _ _ _ _ _ Hchain). }
  split; [done |].
  split; [by intros ep' -> |].
  split; [by intros -> |].
  split; [apply extractLastSegment_segment |].
  split; [apply extractScopeName_found | apply detectScopeType_cases].
Qed.

(** *** Fuel

    Fuel only bounds the number of pages of one scope query: a run that
    ends within its fuel ends in the same way with more. *)

Lemma fetchEligibleRoles_loop_fuel (fuel : nat) :
  forall url allRoles st r st' evs,
    fetchEligibleRoles_loop fuel url allRoles st = (Some r, st', evs) ->
    forall fuel', (fuel <= fuel')%nat ->
    fetchEligibleRoles_loop fuel' url allRoles st = (Some r, st', evs).
Proof.
  induction fuel as [|fuel IH]; intros url allRoles st r st' evs Hrun fuel' Hle;
    destruct (decide (url = "")) as [-> | Hurl].
  - rewrite fetchEligibleRoles_loop_end in *. done.
  - cbn in Hrun. by rewrite bool_decide_eq_true_2 in Hrun.
  - rewrite fetchEligibleRoles_loop_end in *. done.
  - destruct fuel' as [|fuel']; [lia |].
    rewrite fetchEligibleRoles_loop_S in * by done. unfold bind in *.
    destruct (runAzCommand _ st) as [[[output|err] st1] evs1]; [| done].
    destruct (json_Unmarshal_instances output) as [response|err]; [| done].
    destruct (fetchEligibleRoles_loop fuel _ _ st1) as [[[r'|] st2] evs2] eqn:E;
      [| done].
    by rewrite (IH _ _ _ _ _ _ E fuel') by lia.
Qed.

Lemma scopeQueries_fuel (fuel fuel' : nat) (scopes : list string) :
  (fuel <= fuel')%nat ->
  forall st rs st' evs,
    scopeQueries fuel scopes st = (Some rs, st', evs) ->
    scopeQueries fuel' scopes st = (Some rs, st', evs).
Proof.
  intros Hle. induction scopes as [|scope scopes IH]; intros st rs st' evs Hq;
    [done |].
  cbn [scopeQueries] in *. unfold bind in *.
  destruct (getEligibleRolesAtScope fuel scope st) as [[[r|] st1] evs1] eqn:E;
    [| done].
  rewrite getEligibleRolesAtScope_eq in *. unfold fetchEligibleRoles in *.
  rewrite (fetchEligibleRoles_loop_fuel _ _ _ _ _ _ _ E fuel' Hle).
  destruct (scopeQueries fuel scopes st1) as [[[rs'|] st2] evs2] eqn:E';
    [| done].
  by rewrite (IH _ _ _ _ E').
Qed.

Lemma GetEligibleRoleAssignments_fuel (fuel fuel' : nat) (st : state)
    (r : result (list EligibleRole.t)) (st' : state) (evs : list event) :
  (fuel <= fuel')%nat ->
  GetEligibleRoleAssignments fuel st = (Some r, st', evs) ->
  GetEligibleRoleAssignments fuel' st = (Some r, st', evs).
Proof.
  intros Hle. rewrite !GetEligibleRoleAssignments_eq.
  destruct (getSubscriptions st) as [[[subscriptions|e] st1] evs1]; [| done].
  destruct (scopeQueries fuel _ st1) as [[[rs|] st2] evs2] eqn:E; [| done].
  by rewrite (scopeQueries_fuel fuel fuel' _ Hle _ _ _ _ E).
Qed.

End Properties.

(** ** The properties at work in the small world *)

Section Witnesses.
Import Demo.
#[local] Existing Instance Demo.env.

Lemma ActivateRole_principals_witness :
  GetCurrentUserPrincipalID (lift_world uuid_New_String st0).1.2
  = (Ok "user-1", after 2, [EvAz whoami_args])
  /\ exists sid now,
      let body := activationBody request "user-1" sid now in
      ActivateRole_submits request st0 body
      /\ property "principalId" body = Some (VStr "user-1")
      /\ ("user-1" <> "group-9" ->
          property "principalId" body <> Some (VStr "group-9"))
      /\ az_calls (ActivateRole request st0).2 !! 1%nat
         = Some ["rest"; "--method"; "GET"; "--url";
                 "https://management.azure.com/subscriptions/C/providers/Microsoft.Authorization/roleEligibilitySchedules?api-version=2020-10-01&$filter=principalId eq 'group-9' and roleDefinitionId eq '/providers/Microsoft.Authorization/roleDefinitions/reader'"]
      /\ ["rest"; "--method"; "GET"; "--url";
          "https://management.azure.com/subscriptions/C/providers/Microsoft.Authorization/roleEligibilitySchedules?api-version=2020-10-01&$filter=principalId eq 'user-1' and roleDefinitionId eq '/providers/Microsoft.Authorization/roleDefinitions/reader'"]
         ∉ az_calls (ActivateRole request st0).2.
Proof.
  split; [reflexivity |].
  destruct (ActivateRole_principals request st0 "user-1"
              (after 2) [EvAz whoami_args] eq_refl)
    as (sid & now & Hs & Hp & Hne & Hcalls & Hnot).
  exists sid, now. split; [exact Hs |]. split; [exact Hp |].
  split; [exact Hne |]. split; [rewrite Hcalls; reflexivity |].
  apply Hnot. discriminate.
Defined.


Lemma ticketInfo_conditional_witness :
  GetCurrentUserPrincipalID (lift_world uuid_New_String st0).1.2
  = (Ok "user-1", after 2, [EvAz whoami_args])
  /\ exists sid now (ticketInfo : gmap string string),
      property "ticketInfo" (activationBody request "user-1" sid now)
      = Some (VStrMap ticketInfo)
      /\ ticketInfo !! "ticketNumber" = Some "INC-7"
      /\ ticketInfo !! "ticketSystem" = None.
Proof.
  split; [reflexivity |].
  destruct (ticketInfo_conditional request st0 "user-1"
              (after 2) [EvAz whoami_args] eq_refl)
    as (sid & now & _ & _ & Hsome).
  destruct Hsome as (ticketInfo & Hprop & Hnumber & Hsystem & _).
  { left. discriminate. }
  exists sid, now, ticketInfo. split; [exact Hprop |].
  split; [exact Hnumber | exact Hsystem].
Defined.

Lemma duration_encoding_witness :
  GetCurrentUserPrincipalID (lift_world uuid_New_String st0).1.2
  = (Ok "user-1", after 2, [EvAz whoami_args])
  /\ ActivationRequest.Duration request = 90%Z
  /\ exists sid,
      expiration_field "duration"
        (activationBody request "user-1" sid (mkTime 3 0 0))
      = Some (VStr "PT90M").
Proof.
  split; [reflexivity |]. split; [reflexivity |].
  destruct (duration_encoding request st0 "user-1"
              (after 2) [EvAz whoami_args] eq_refl)
    as (sid & _ & _ & _ & _ & H90 & _).
  exists sid. apply H90. reflexivity.
Defined.

Lemma aggregator_failure_semantics_witness :
  exists subscriptions st1 evs1 rs st2 evs2,
    getSubscriptions st0 = (Ok subscriptions, st1, evs1)
    /\ scopeQueries 3 (scopes_of subscriptions) st1 = (Some rs, st2, evs2)
    /\ map is_Ok rs = [true; true; false; true]
    /\ GetEligibleRoleAssignments 3 st0
       = (Some (Ok (map eligibleRoleOfItem [itemT; itemA1; itemA2; itemA3])),
          st2, evs1 ++ evs2).
Proof.
  eexists _, _, _, _, _, _.
  split; [vm_compute; reflexivity |].
  split; [vm_compute; reflexivity |].
  split; [reflexivity |].
  exact (proj1 (proj2 (aggregator_failure_semantics 3 st0))
           _ _ _ _ _ _ eq_refl eq_refl).
Defined.

Lemma deduplicate_first_seen_witness :
  GetEligibleRoleAssignments 3 st0
  = (Some (Ok (map eligibleRoleOfItem [itemT; itemA1; itemA2; itemA3])),
     after 7, (GetEligibleRoleAssignments 3 st0).2)
  /\ NoDup (EligibleRole.ID
             <$> map eligibleRoleOfItem [itemT; itemA1; itemA2; itemA3]).
Proof.
  split; [vm_compute; reflexivity |].
  destruct (proj2 (proj2 deduplicate_first_seen) 3 st0
              (map eligibleRoleOfItem [itemT; itemA1; itemA2; itemA3])
              (after 7) (GetEligibleRoleAssignments 3 st0).2)
    as [Hnodup _]; [vm_compute; reflexivity | exact Hnodup].
Defined.

Lemma pagination_follows_nextLink_witness :
  getEligibleRolesAtScope 3 "/subscriptions/A" st0
  = (Some (Ok (map eligibleRoleOfItem [itemA1; itemA2; itemA3])),
     after 3,
     [EvAz (GET_args (scopeURL "/subscriptions/A"));
      EvAz (GET_args pageA2); EvAz (GET_args pageA3)]).
Proof.
  apply (proj2 (pagination_follows_nextLink 3 "/subscriptions/A" st0)
           "A, page 1" (after 1)
           [EvAz (GET_args (scopeURL "/subscriptions/A"))]
           (Response.mk [itemA1] pageA2)
           "A, page 2" (after 2) [EvAz (GET_args pageA2)]
           (Response.mk [itemA2] pageA3)
           "A, page 3" (after 3) [EvAz (GET_args pageA3)]
           (Response.mk [itemA3] ""));
    try reflexivity; try discriminate; lia.
Defined.

Lemma row_mapping_witness :
  time_Parse_RFC3339 (Item.StartDateTime (Item.Properties itemA1)) = None
  /\ EligibleRole.StartDateTime (eligibleRoleOfItem itemA1) = Time_zero
  /\ EligibleRole.RoleName (eligibleRoleOfItem itemA1) = "reader"
  /\ extractScopeName "/subscriptions/A/resourceGroups/rg" = "A"
  /\ detectScopeType "/subscriptions/A/resourceGroups/rg" = "resourceGroup".
Proof.
  destruct (row_mapping itemA1)
    as (Hstart & _ & _ & _ & _ & _ & _ & Hnames & _ & Hscope & Htype).
  split; [reflexivity |].
  split; [apply Hstart; reflexivity |].
  split; [apply (proj1 (Hnames eq_refl)) |].
  split.
  - apply (Hscope "/subscriptions/A/resourceGroups/rg" [""] "subscriptions" "A"
             ["resourceGroups"; "rg"]); [reflexivity | apply list_elem_of_here |].
    intros x Hx. apply list_elem_of_singleton in Hx. subst x.
    unfold scope_keywords. rewrite !not_elem_of_cons.
    repeat split; try discriminate. apply not_elem_of_nil.
  - apply (proj1 (Htype "/subscriptions/A/resourceGroups/rg")).
    exists "/subscriptions/A", "rg". reflexivity.
Defined.

Lemma EligibilityID_is_ID_witness :
  GetEligibleRoleAssignments 3 st0
  = (Some (Ok (map eligibleRoleOfItem [itemT; itemA1; itemA2; itemA3])),
     after 7, (GetEligibleRoleAssignments 3 st0).2)
  /\ NoDup (EligibleRole.EligibilityID
             <$> map eligibleRoleOfItem [itemT; itemA1; itemA2; itemA3]).
Proof.
  split; [vm_compute; reflexivity |].
  apply (proj1 (proj2 EligibilityID_is_ID) 3 st0
           (map eligibleRoleOfItem [itemT; itemA1; itemA2; itemA3])
           (after 7) (GetEligibleRoleAssignments 3 st0).2).
  vm_compute; reflexivity.
Defined.

End Witnesses.

(** ** Further properties of the code *)

Section PathProperties.

(** *** Splitting *)

Lemma strings_Split_free (s : string) (sep : ascii) (x : string) :
  x ∈ strings_Split s sep -> free_of sep x.
Proof.
  revert x. induction s as [|c s IH]; intros x; cbn.
  - rewrite list_elem_of_singleton. intros -> [|? ?] b; discriminate.
  - destruct (decide (c = sep)) as [-> | Hc].
    + rewrite elem_of_cons. intros [-> | Hin]; [| by apply IH].
      intros [|? ?] b; discriminate.
    + pose proof (strings_Split_nonempty s sep) as Hne.
      destruct (strings_Split s sep) as [|h t]; [done |].
      rewrite elem_of_cons. intros [-> | Hin].
      * intros [|y a] b Heq; injection Heq as Hy Hh; [by subst |].
        by apply (IH h (list_elem_of_here _ _) a b).
      * apply IH. by apply list_elem_of_further.
Qed.

Lemma free_of_Contains (sep : ascii) (s : string) :
  strings_Contains s (String sep "") = false -> free_of sep s.
Proof.
  intros Hno a b ->.
  assert (strings_Contains (a +:+ String sep b) (String sep "") = true) as Hyes.
  { apply strings_Contains_occurs. by exists a, b. }
  congruence.
Qed.

(** The last piece of a split and what precedes it in the string. *)
Lemma strings_Split_last (s : string) (sep : ascii) :
  exists pre seg,
    last (strings_Split s sep) = Some seg
    /\ s = pre +:+ seg
    /\ ((pre = "" /\ strings_Split s sep = [seg])
        \/ ((exists d, pre = d +:+ String sep "")
            /\ exists h h' t, strings_Split s sep = h :: h' :: t)).
Proof.
  induction s as [|c s (pre & seg & Hlast & Hs & Hpre)]; cbn.
  - exists "", "". split; [done |]. split; [done |]. by left.
  - pose proof (strings_Split_nonempty s sep) as Hne.
    destruct (decide (c = sep)) as [-> | Hc].
    + exists (String sep pre), seg.
      split; [by destruct (strings_Split s sep) |].
      split; [by rewrite Hs |]. right. split.
      * destruct Hpre as [[-> _] | [[d ->] _]];
          [by exists "" | by exists (String sep d)].
      * destruct (strings_Split s sep) as [|h t]; [done |]. by exists "", h, t.
    + destruct Hpre as [[-> Hone] | [[d ->] (h & h' & t & Htwo)]].
      * rewrite Hone. exists "", (String c seg).
        split; [done |]. split; [by rewrite Hs |]. by left.
      * rewrite Htwo in *. exists (String c (d +:+ String sep "")), seg.
        split; [done |]. split; [by rewrite Hs |]. right.
        split; [by exists (String c d) | by exists (String c h), h', t].
Qed.

(** *** [extractLastSegment] *)

(** X1. The last segment is what follows the last ["/"] of the path: the
    path is a prefix, empty or ending in ["/"], followed by the segment,
    and the segment has no ["/"]. A path without ["/"] is its own last
    segment, and taking the last segment twice changes nothing. *)
Theorem extractLastSegment_suffix (path : string) :
  let seg := extractLastSegment path in
  (exists pre,
      path = pre +:+ seg /\ (pre = "" \/ exists d, pre = d +:+ "/"))
  /\ free_of "/" seg
  /\ (free_of "/" path -> seg = path)
  /\ extractLastSegment seg = seg.
Proof.
  intros seg.
  destruct (strings_Split_last path "/") as (pre & seg' & Hlast & Hpath & Hpre).
  assert (seg' = seg) as ->.
  { pose proof (extractLastSegment_last path) as Hl. fold seg in Hl. congruence. }
  assert (free_of "/" seg) as Hfree.
  { apply (strings_Split_free path "/"). by apply last_Some_elem_of. }
  split.
  { exists pre. split; [done |].
    destruct Hpre as [[-> _] | [[d ->] _]]; [by left | right; by exists d]. }
  split; [done |]. split.
  - intros Hno. destruct Hpre as [[-> _] | [[d ->] _]]; [done |].
    exfalso. apply (Hno d seg). by rewrite Hpath, append_assoc.
  - pose proof (extractLastSegment_last seg) as Hl.
    rewrite (strings_Split_whole seg "/" Hfree) in Hl. by injection Hl.
Qed.

(** *** [extractScopeName] and [detectScopeType] *)

Lemma extractScopeName_loop_none (parts todo done_ : list string) :
  parts = done_ ++ todo ->
  (forall pre kw next post,
      parts = pre ++ kw :: next :: post -> kw ∉ scope_keywords) ->
  extractScopeName_loop parts (length done_) todo = None.
Proof.
  revert done_. induction todo as [|part todo IH]; intros done_ Hparts Hno;
    [done |].
  rewrite extractScopeName_loop_cons.
  assert (extractScopeName_loop parts (length done_ + 1) todo = None) as ->.
  { replace (length done_ + 1)%nat with (length (done_ ++ [part])).
    2:{ rewrite length_app. cbn. lia. }
    apply IH; [by rewrite <- app_assoc | done]. }
  destruct todo as [|next post].
  - rewrite (bool_decide_eq_false_2 (length done_ + 1 < length parts)%nat).
    2:{ rewrite Hparts, length_app. cbn. lia. }
    by rewrite !andb_false_r.
  - pose proof (Hno done_ part next post Hparts) as Hkw.
    unfold scope_keywords in Hkw. rewrite !not_elem_of_cons in Hkw.
    destruct Hkw as (H1 & H2 & H3 & _).
    by rewrite !(bool_decide_eq_false_2 (part = _)) by done.
Qed.

(** X2. When no segment of the scope but the last is [subscriptions],
    [resourceGroups] or [managementGroups], the scope name is the scope
    itself: a keyword in last place has nothing after it to return. *)
Theorem extractScopeName_unchanged (scope : string) :
  Forall (fun part => part ∉ scope_keywords)
    (removelast (strings_Split scope "/")) ->
  extractScopeName scope = scope.
Proof.
  intros Hno. unfold extractScopeName.
  pose proof (extractScopeName_loop_none (strings_Split scope "/")
                (strings_Split scope "/") [] eq_refl) as Hl.
  cbn [length] in Hl. rewrite Hl; [done |].
  intros pre kw next post Hsplit. rewrite Hsplit in Hno.
  rewrite removelast_app in Hno by done.
  apply Forall_app in Hno as [_ Hno].
  change (removelast (kw :: next :: post))
    with (kw :: removelast (next :: post)) in Hno.
  by apply Forall_cons in Hno as [Hkw _].
Qed.

(** X3. For the scope of a resource group,
    ["/subscriptions/<id>/resourceGroups/<rest>"], the scope type is
    [resourceGroup] while the scope name is the subscription id, not the
    name of the resource group: the name comes from the first keyword
    segment, the type from a fixed order of tests. *)
Theorem resourceGroup_scope_named_by_subscription (id rest : string) :
  free_of "/" id ->
  let scope := "/subscriptions/" +:+ id +:+ "/resourceGroups/" +:+ rest in
  extractScopeName scope = id
  /\ detectScopeType scope = "resourceGroup".
Proof.
  intros Hid scope. split.
  - apply (extractScopeName_found scope [""] "subscriptions" id
             (strings_Split ("resourceGroups/" +:+ rest) "/")).
    + subst scope.
      change ("/subscriptions/" +:+ id +:+ "/resourceGroups/" +:+ rest)
        with ("/subscriptions"
              +:+ String "/" (id +:+ String "/" ("resourceGroups/" +:+ rest))).
      rewrite strings_Split_app, strings_Split_app.
      by rewrite (strings_Split_whole id "/" Hid).
    + apply list_elem_of_here.
    + intros x Hx. apply list_elem_of_singleton in Hx as ->.
      unfold scope_keywords. rewrite !not_elem_of_cons.
      repeat split; try discriminate. apply not_elem_of_nil.
  - apply (proj1 (detectScopeType_cases scope)).
    exists ("/subscriptions/" +:+ id), rest. subst scope.
    by rewrite append_assoc.
Qed.

(** *** Deduplication *)

Lemma dedup_kept_id (seen : gmap string bool) (l : list EligibleRole.t) :
  (forall x, x ∈ l -> default false (seen !! EligibleRole.ID x) = false) ->
  NoDup (EligibleRole.ID <$> l) ->
  dedup_kept seen l = l.
Proof.
  revert seen. induction l as [|x l IH]; intros seen Hunseen Hnodup; [done |].
  cbn. rewrite (Hunseen x) by apply list_elem_of_here.
  cbn in Hnodup. apply NoDup_cons in Hnodup as [Hx Hnodup].
  f_equal. apply IH; [| done].
  intros y Hy. rewrite seen_insert.
  rewrite bool_decide_eq_false_2.
  - apply Hunseen. by apply list_elem_of_further.
  - intros Heq. apply Hx. rewrite Heq. by apply list_elem_of_fmap_2.
Qed.

(** X4. Deduplication leaves exactly the lists without repeated [ID]
    alone, and is idempotent. *)
Theorem deduplicate_fixpoint (allRoles : list EligibleRole.t) :
  (deduplicate allRoles = allRoles <-> NoDup (EligibleRole.ID <$> allRoles))
  /\ deduplicate (deduplicate allRoles) = deduplicate allRoles.
Proof.
  assert (forall l, NoDup (EligibleRole.ID <$> l) -> deduplicate l = l) as Hfix.
  { intros l Hl. rewrite deduplicate_eq. by apply dedup_kept_id. }
  split; [split |].
  - intros Heq. rewrite <- Heq, deduplicate_eq. apply dedup_kept_NoDup.
  - apply Hfix.
  - apply Hfix. rewrite deduplicate_eq. apply dedup_kept_NoDup.
Qed.

(** *** [truncate] *)

Lemma substring_prefix (n : nat) (s : string) :
  (n <= String.length s)%nat ->
  exists rest, s = substring 0 n s +:+ rest
               /\ String.length (substring 0 n s) = n.
Proof.
  revert s. induction n as [|n IH]; intros s Hn.
  - exists s. by destruct s.
  - destruct s as [|c s]; [cbn in Hn; lia |].
    destruct (IH s) as (rest & Hs & Hlen); [cbn in Hn; lia |].
    exists rest. cbn [substring]. rewrite append_cons. cbn [String.length].
    split; [by rewrite <- Hs | by rewrite Hlen].
Qed.

(** X5. For a width of at least 3, [truncate] does not panic and its
    result has at most [max] bytes: a string that fits is returned as it
    is, a longer one is cut to its first [max - 3] bytes followed by three
    dots, [max] bytes in all. For a width below 3 a longer string makes the
    slice expression panic. *)
Theorem truncate_fits (s : string) (max : Z) :
  ((3 <= max)%Z ->
   exists r,
     truncate s max = Some r
     /\ (Z.of_nat (String.length r) <= max)%Z
     /\ ((Z.of_nat (String.length s) <= max)%Z -> r = s)
     /\ ((Z.of_nat (String.length s) > max)%Z ->
         Z.of_nat (String.length r) = max
         /\ exists keep rest,
             s = keep +:+ rest
             /\ Z.of_nat (String.length keep) = (max - 3)%Z
             /\ r = keep +:+ "..."))
  /\ ((max < 3)%Z -> (Z.of_nat (String.length s) > max)%Z ->
      truncate s max = None).
Proof.
  unfold truncate. split.
  - intros Hmax. case_bool_decide as Hlong.
    + rewrite bool_decide_eq_true_2 by lia.
      destruct (substring_prefix (Z.to_nat (max - 3)) s) as (rest & Hs & Hlen);
        [lia |].
      eexists. split; [reflexivity |].
      rewrite length_append, Hlen. cbn [String.length].
      split; [lia |]. split; [lia |]. intros _. split; [lia |].
      exists (substring 0 (Z.to_nat (max - 3)) s), rest.
      split; [done |]. split; [lia | done].
    + exists s. split; [done |]. split; [lia |]. split; [done | lia].
  - intros Hmax Hlong. rewrite bool_decide_eq_true_2 by done.
    by rewrite bool_decide_eq_false_2 by lia.
Qed.

End PathProperties.
Section RunProperties.
Context `{Env}.

(** *** Debug output and silence *)

Lemma only_az_app (a b : list event) : only_az a -> only_az b -> only_az (a ++ b).
Proof. intros Ha Hb. apply Forall_app. by split. Qed.

Lemma only_az_events (evs : list event) :
  only_az evs -> evs = EvAz <$> az_calls evs.
Proof.
  induction 1 as [|e evs [args ->] _ IH]; [done |].
  change (EvAz args :: evs = EvAz args :: (EvAz <$> az_calls evs)).
  by rewrite <- IH.
Qed.

Lemma bind_run {A B} (c : M A) (k : A -> M B) (st : state) :
  bind c k st =
  ((k (c st).1.1 (c st).1.2).1.1,
   (k (c st).1.1 (c st).1.2).1.2,
   (c st).2 ++ (k (c st).1.1 (c st).1.2).2).
Proof.
  unfold bind. destruct (c st) as [[a st1] evs1]. cbn.
  by destruct (k a st1) as [[b st2] evs2].
Qed.

Lemma Verbose_invariant_ext {A} (c c' : M A) :
  (forall st, c st = c' st) -> Verbose_invariant c' -> Verbose_invariant c.
Proof. intros Heq Hc w v. rewrite !Heq. apply Hc. Qed.

Lemma Verbose_invariant_ret {A} (a : A) : Verbose_invariant (ret a).
Proof. intros w v. repeat split. constructor. Qed.

Lemma Verbose_invariant_bind {A B} (c : M A) (k : A -> M B) :
  Verbose_invariant c -> (forall a, Verbose_invariant (k a)) ->
  Verbose_invariant (bind c k).
Proof.
  intros Hc Hk w v. rewrite !bind_run. cbn [fst snd].
  destruct (Hc w v) as (Ha & Hst & Hcalls & Hquiet).
  destruct (Hc w false) as (_ & Hst0 & _ & _).
  destruct (c (mkState w false)) as [[a0 [w0 v0]] evs0].
  destruct (c (mkState w v)) as [[a st1] evs1].
  cbn [fst snd world] in *. injection Hst0 as ->. subst a st1.
  destruct (Hk a0 w0 v) as (Hb & Hst' & Hcalls' & Hquiet').
  rewrite Hb, Hst', !az_calls_app, Hcalls, Hcalls'.
  repeat split. by apply only_az_app.
Qed.

Lemma Verbose_invariant_runAzCommand (args : list string) :
  Verbose_invariant (runAzCommand args).
Proof.
  intros w v. rewrite !runAzCommand_eq. cbn. repeat split.
  constructor; [by exists args | constructor].
Qed.

Lemma Verbose_invariant_lift_world {A} (f : World -> A * World) :
  Verbose_invariant (lift_world f).
Proof.
  intros w v. unfold lift_world. cbn. destruct (f w). repeat split.
  constructor.
Qed.

Lemma Verbose_invariant_debugf (text : string) : Verbose_invariant (debugf text).
Proof.
  intros w v. rewrite !debugf_eq. cbn. repeat split.
  - by rewrite az_calls_debug.
  - constructor.
Qed.

Lemma Silent_ext {A} (c c' : M A) :
  (forall st, c st = c' st) -> Silent c' -> Silent c.
Proof. intros Heq Hc st. rewrite Heq. apply Hc. Qed.

Lemma Silent_ret {A} (a : A) : Silent (ret a).
Proof. intros st. constructor. Qed.

Lemma Silent_bind {A B} (c : M A) (k : A -> M B) :
  Silent c -> (forall a, Silent (k a)) -> Silent (bind c k).
Proof.
  intros Hc Hk st. rewrite bind_run. cbn [snd].
  apply only_az_app; [apply Hc | apply Hk].
Qed.

Lemma Silent_runAzCommand (args : list string) : Silent (runAzCommand args).
Proof.
  intros st. rewrite runAzCommand_eq. cbn.
  constructor; [by exists args | constructor].
Qed.

Ltac run_invariant :=
  repeat first
    [ apply Verbose_invariant_ret
    | apply Verbose_invariant_runAzCommand
    | apply Verbose_invariant_lift_world
    | apply Verbose_invariant_debugf
    | apply Silent_ret
    | apply Silent_runAzCommand
    | apply Verbose_invariant_bind; [| intros ?]
    | apply Silent_bind; [| intros ?]
    | match goal with
      | |- Verbose_invariant (fun st => ?f st) => change (Verbose_invariant f)
      | |- Silent (fun st => ?f st) => change (Silent f)
      | |- Verbose_invariant (match ?x with _ => _ end) => destruct x
      | |- Silent (match ?x with _ => _ end) => destruct x
      | |- Verbose_invariant (if ?x then _ else _) => destruct x
      | |- Silent (if ?x then _ else _) => destruct x
      end ].

Lemma fetchEligibleRoles_loop_cases (fuel : nat) (url : string)
    (allRoles : list EligibleRole.t) (st : state) :
  fetchEligibleRoles_loop fuel url allRoles st =
  (if bool_decide (url <> "") then
     match fuel with
     | O => ret None
     | S fuel' =>
         bind (runAzCommand (GET_args url))
           (fun r =>
              match r with
              | Err err => ret (Some (Err err))
              | Ok output =>
                  match json_Unmarshal_instances output with
                  | Err err =>
                      ret (Some (Err ("failed to parse response: " +:+ err)))
                  | Ok response =>
                      fetchEligibleRoles_loop fuel' (Response.NextLink response)
                        (appendPage allRoles (Response.Value response))
                  end
              end)
     end
   else ret (Some (Ok allRoles))) st.
Proof. by destruct fuel. Qed.

Lemma fetchEligibleRoles_loop_invariant (fuel : nat) :
  forall url allRoles,
    Verbose_invariant (fetchEligibleRoles_loop fuel url allRoles)
    /\ Silent (fetchEligibleRoles_loop fuel url allRoles).
Proof.
  induction fuel as [|fuel IH]; intros url allRoles; split.
  - eapply Verbose_invariant_ext;
      [intros st; apply fetchEligibleRoles_loop_cases |]. run_invariant.
  - eapply Silent_ext; [intros st; apply fetchEligibleRoles_loop_cases |].
    run_invariant.
  - eapply Verbose_invariant_ext;
      [intros st; apply fetchEligibleRoles_loop_cases |].
    run_invariant. apply IH.
  - eapply Silent_ext; [intros st; apply fetchEligibleRoles_loop_cases |].
    run_invariant. apply IH.
Qed.

Lemma getSubscriptions_invariant :
  Verbose_invariant getSubscriptions /\ Silent getSubscriptions.
Proof. split; unfold getSubscriptions; run_invariant. Qed.

Lemma subscriptions_loop_invariant (fuel : nat)
    (subscriptions : list subscription.t) :
  forall allRoles,
    Verbose_invariant (subscriptions_loop fuel subscriptions allRoles)
    /\ Silent (subscriptions_loop fuel subscriptions allRoles).
Proof.
  induction subscriptions as [|sub subscriptions IH]; intros allRoles; split;
    cbn [subscriptions_loop]; run_invariant;
    try apply (fetchEligibleRoles_loop_invariant fuel); apply IH.
Qed.

Lemma GetEligibleRoleAssignments_invariant (fuel : nat) :
  Verbose_invariant (GetEligibleRoleAssignments fuel)
  /\ Silent (GetEligibleRoleAssignments fuel).
Proof.
  split; unfold GetEligibleRoleAssignments; run_invariant;
    try apply getSubscriptions_invariant;
    try apply (fetchEligibleRoles_loop_invariant fuel);
    apply subscriptions_loop_invariant.
Qed.

Lemma ActivateRole_invariant (req : ActivationRequest.t) :
  Verbose_invariant (ActivateRole req).
Proof.
  unfold ActivateRole, ActivateRole_linkedScheduleID, getEligibilityScheduleID,
    GetCurrentUserPrincipalID.
  run_invariant.
Qed.

(** X6. Debug output changes nothing else: with [Verbose] set or not,
    [ActivateRole] returns the same result, leaves the same world and
    makes the same [az] invocations, and the variable keeps its value.
    Without [Verbose], the [az] invocations are its only interactions. *)
Theorem ActivateRole_Verbose_independent (req : ActivationRequest.t)
    (w : World) (v : bool) :
  let run := ActivateRole req (mkState w v) in
  let quiet := ActivateRole req (mkState w false) in
  run.1.1 = quiet.1.1
  /\ world run.1.2 = world quiet.1.2
  /\ Verbose run.1.2 = v
  /\ az_calls run.2 = az_calls quiet.2
  /\ only_az quiet.2.
Proof.
  destruct (ActivateRole_invariant req w v) as (Hr & Hst & Hcalls & Hquiet).
  cbn zeta. rewrite Hst. by repeat split.
Qed.

(** X7. The aggregator reports nothing: whatever [Verbose] is, all its
    interactions are [az] invocations, so a scope query that fails leaves
    no message anywhere; [Verbose] changes neither its result nor its
    events nor the world it leaves. *)
Theorem aggregator_silent (fuel : nat) (w : World) (v : bool) :
  let run := GetEligibleRoleAssignments fuel (mkState w v) in
  let quiet := GetEligibleRoleAssignments fuel (mkState w false) in
  only_az run.2
  /\ run.1.1 = quiet.1.1
  /\ run.1.2 = mkState (world quiet.1.2) v
  /\ run.2 = quiet.2.
Proof.
  destruct (GetEligibleRoleAssignments_invariant fuel) as [Hinv Hsilent].
  destruct (Hinv w v) as (Hr & Hst & Hcalls & Hquiet).
  cbn zeta. split; [apply Hsilent |]. split; [done |]. split; [done |].
  rewrite (only_az_events _ (Hsilent (mkState w v))).
  rewrite (only_az_events _ Hquiet). by rewrite Hcalls.
Qed.

(** *** Failures *)

Lemma getSubscriptions_events (st : state) :
  (getSubscriptions st).2 = [EvAz account_list_args].
Proof.
  unfold getSubscriptions. rewrite bind_run, runAzCommand_eq. cbn [fst snd].
  destruct (run_err _); [done |].
  by destruct (json_Unmarshal_subscriptions _).
Qed.

(** X8. When the subscriptions cannot be listed, be it that [az] fails or
    that its output does not parse, the aggregator stops there: it returns
    the error and has made no eligibility query at all, not even the
    tenant-level one. *)
Theorem enumeration_failure_stops (fuel : nat) (st : state) (err : string) :
  (getSubscriptions st).1.1 = Err err ->
  GetEligibleRoleAssignments fuel st
  = (Some (Err ("failed to get subscriptions: " +:+ err)),
     (getSubscriptions st).1.2,
     [EvAz account_list_args]).
Proof.
  intros Herr. rewrite GetEligibleRoleAssignments_eq.
  pose proof (getSubscriptions_events st) as Hev.
  destruct (getSubscriptions st) as [[r st1] evs1]. cbn in *.
  by subst.
Qed.

Lemma fetchEligibleRoles_loop_failure (url : string) (st : state)
    (pages : list Response.t) (url' : string) (st1 : state)
    (evs : list event) :
  pages_to url st pages url' st1 evs ->
  forall (fuel : nat) (allRoles : list EligibleRole.t) (err : string),
    url' <> "" ->
    (length pages < fuel)%nat ->
    match (runAzCommand (GET_args url') st1).1.1 with
    | Err e => err = e
    | Ok output =>
        exists e, json_Unmarshal_instances output = Err e
                  /\ err = "failed to parse response: " +:+ e
    end ->
    fetchEligibleRoles_loop fuel url allRoles st
    = (Some (Err err), (runAzCommand (GET_args url') st1).1.2,
       evs ++ [EvAz (GET_args url')]).
Proof.
  induction 1 as [url st | url st output st1 response pages url' st2 evs Hurl
                            Hrun Hparse Hrest IH];
    intros fuel allRoles err Hurl' Hfuel Hfail;
    (destruct fuel as [|fuel]; [cbn in Hfuel; lia |]);
    rewrite fetchEligibleRoles_loop_S by done; rewrite bind_run.
  - rewrite runAzCommand_events.
    destruct (runAzCommand (GET_args url) st) as [[[output|e] st1] evs1];
      cbn [fst snd] in *.
    + destruct Hfail as (e & -> & ->). done.
    + by subst.
  - rewrite Hrun. cbn [fst snd]. rewrite Hparse.
    by rewrite (IH fuel _ err Hurl') by (cbn in Hfuel; lia || done).
Qed.

(** X9. A scope query that fails on a later page loses the earlier pages:
    when the first pages arrive and the request for the next one fails, or
    its answer does not parse, [fetchEligibleRoles] returns that error and
    no row, after one request per page fetched plus the failed one. *)
Theorem fetch_failure_discards_rows (fuel : nat) (url : string) (st : state)
    (pages : list Response.t) (url' : string) (st1 : state)
    (evs : list event) (err : string) :
  pages_to url st pages url' st1 evs ->
  url' <> "" ->
  (length pages < fuel)%nat ->
  match (runAzCommand (GET_args url') st1).1.1 with
  | Err e => err = e
  | Ok output =>
      exists e, json_Unmarshal_instances output = Err e
                /\ err = "failed to parse response: " +:+ e
  end ->
  fetchEligibleRoles fuel url st
  = (Some (Err err), (runAzCommand (GET_args url') st1).1.2,
     evs ++ [EvAz (GET_args url')])
  /\ length (evs ++ [EvAz (GET_args url')]) = S (length pages).
Proof.
  intros Hchain Hurl' Hfuel Hfail. split.
  - unfold fetchEligibleRoles.
    by apply (fetchEligibleRoles_loop_failure _ _ _ _ _ _ Hchain).
  - rewrite length_app. cbn.
    assert (length evs = length pages) as ->; [| lia].
    clear -Hchain. induction Hchain; [done | cbn; congruence].
Qed.

(** X10. When the signed-in principal cannot be resolved, [ActivateRole]
    stops before anything else: the sign-in query is its only [az]
    invocation (no schedule lookup, no submission), and the error it
    returns names the step twice, once from [GetCurrentUserPrincipalID] and
    once from [ActivateRole], around the message and [stderr] of [az]. *)
Theorem ActivateRole_without_principal (req : ActivationRequest.t) (st : state)
    (err : string) :
  let st1 := (lift_world uuid_New_String st).1.2 in
  let whoami := (exec_az whoami_args (world st1)).1 in
  run_err whoami = Some err ->
  (ActivateRole req st).1.1
  = Err ("failed to get current user principal ID: "
         +:+ "failed to get current user principal ID: "
         +:+ "az command failed: " +:+ err +:+ nl +:+ "stderr: "
         +:+ stderr whoami)
  /\ az_calls (ActivateRole req st).2 = [whoami_args].
Proof.
  intros st1 whoami Herr. unfold ActivateRole. rewrite bind_run.
  fold st1. rewrite bind_run, GetCurrentUserPrincipalID_eq, runAzCommand_eq.
  cbn [fst snd]. fold whoami. rewrite Herr. cbn [fst snd ret].
  split; [done |].
  assert ((lift_world uuid_New_String st).2 = []) as ->.
  { unfold lift_world. by destruct (uuid_New_String _). }
  done.
Qed.

(** X11. A rejected submission is returned with the diagnostics of [az]:
    when the principal resolves and the body marshals but the [PUT] fails,
    the error of [ActivateRole] is the message of [az] followed by what it
    wrote to [stderr], under the prefix of the activation step. When the
    [PUT] exits without error the result is success, whatever it wrote to
    [stdout]. *)
Theorem ActivateRole_submission_result (req : ActivationRequest.t) (st : state)
    (p : string) (st2 : state) (evs2 : list event) (bodyJSON : string) :
  GetCurrentUserPrincipalID (lift_world uuid_New_String st).1.2
  = (Ok p, st2, evs2) ->
  let role := ActivationRequest.Role req in
  let link := ActivateRole_linkedScheduleID role st2 in
  let clock := lift_world time_Now link.1.2 in
  let body := activationBody req p link.1.1 clock.1.1 in
  let url :=
    activationURL (EligibleRole.Scope role) (lift_world uuid_New_String st).1.1 in
  let put := (exec_az (PUT_args url bodyJSON) (world clock.1.2)).1 in
  json_Marshal (VMap body) = Ok bodyJSON ->
  (ActivateRole req st).1.1 =
  match run_err put with
  | Some err =>
      Err ("activation request failed: " +:+ "az command failed: " +:+ err
           +:+ nl +:+ "stderr: " +:+ stderr put)
  | None => Ok tt
  end.
Proof.
  intros Hp role link clock body url put Hbody.
  destruct (ActivateRole_run req st p st2 evs2 Hp) as [Hres _].
  rewrite Hres. fold role link clock body. rewrite Hbody.
  fold url. rewrite runAzCommand_eq. cbn [fst snd]. fold put.
  by destruct (run_err put).
Qed.

(** *** The rest of the request body *)

(** X12. The body has the single member ["properties"], and that object
    has the six members of the literal, plus ["ticketInfo"] when a ticket
    field is given, and no other. The request type is [SelfActivate]; the
    role definition id and the justification are those of the request, the
    justification also when it is empty. *)
Theorem activationBody_members (req : ActivationRequest.t) (p sid : string)
    (now : Time) :
  let body := activationBody req p sid now in
  dom body = {["properties"]}
  /\ (exists properties,
        body !! "properties" = Some (VMap properties)
        /\ dom properties =
           {["principalId"; "roleDefinitionId"; "requestType";
             "linkedRoleEligibilityScheduleId"; "justification";
             "scheduleInfo"]}
           ∪ (if bool_decide (ActivationRequest.TicketNumber req <> "")
                 || bool_decide (ActivationRequest.TicketSystem req <> "")
              then {["ticketInfo"]} else ∅))
  /\ property "requestType" body = Some (VStr "SelfActivate")
  /\ property "roleDefinitionId" body
     = Some (VStr (EligibleRole.RoleDefinitionID (ActivationRequest.Role req)))
  /\ property "justification" body
     = Some (VStr (ActivationRequest.Justification req)).
Proof.
  intros body. subst body.
  split; [| split].
  - unfold activationBody, add_ticketInfo, requestBody_literal.
    destruct (_ || _); cbn.
    + rewrite lookup_singleton_eq. rewrite dom_insert_L, dom_singleton_L.
      set_solver.
    + by rewrite dom_singleton_L.
  - unfold activationBody, add_ticketInfo, requestBody_literal.
    destruct (_ || _); cbn.
    + rewrite lookup_singleton_eq, lookup_insert_eq.
      eexists. split; [reflexivity |].
      rewrite !dom_insert_L, dom_singleton_L. set_solver.
    + rewrite lookup_singleton_eq.
      eexists. split; [reflexivity |].
      rewrite !dom_insert_L, dom_singleton_L. set_solver.
  - by rewrite !activationBody_property.
Qed.

(** *** Active assignments *)

Lemma activeRoleOfItem_eq (item : Item.t) :
  activeRoleOfItem item =
  let props := Item.Properties item in
  {| EligibleRole.ID := Item.ID item;
     EligibleRole.RoleDefinitionID := Item.RoleDefinitionID props;
     EligibleRole.RoleName :=
       match Item.ExpandedProperties props with
       | Some ep =>
           RoleDefinitionInfo.DisplayName (ExpandedProperties.RoleDefinition ep)
       | None => ""
       end;
     EligibleRole.Scope := Item.Scope props;
     EligibleRole.ScopeName :=
       match Item.ExpandedProperties props with
       | Some ep => ScopeInfo.DisplayName (ExpandedProperties.Scope ep)
       | None => ""
       end;
     EligibleRole.ScopeType :=
       match Item.ExpandedProperties props with
       | Some ep => ScopeInfo.Type_ (ExpandedProperties.Scope ep)
       | None => ""
       end;
     EligibleRole.PrincipalID := Item.PrincipalID props;
     EligibleRole.Status := Item.Status props;
     EligibleRole.MemberType := Item.MemberType props;
     EligibleRole.StartDateTime := Time_zero;
     EligibleRole.EndDateTime := None;
     EligibleRole.MaxDuration := 0;
     EligibleRole.EligibilityID := "";
     EligibleRole.ExpandedProperties := Item.ExpandedProperties props |}.
Proof.
  unfold activeRoleOfItem.
  by destruct item as [id name ty [rd sc pr status mt start e [ep|]]].
Qed.

(** X13. [GetActiveRoleAssignments] reads one page only: it makes a single
    request whatever happens, and when the request succeeds and parses it
    returns one role per item of that page, in order, without looking at
    the continuation link. The roles carry neither timestamps nor a
    maximum duration, and an item without expanded properties gets empty
    names: the fallbacks of the eligible list are not applied. *)
Theorem GetActiveRoleAssignments_single_page (st : state) :
  (GetActiveRoleAssignments st).2 = [EvAz (GET_args activeAssignmentsURL)]
  /\ (forall output st1 evs1 response,
        runAzCommand (GET_args activeAssignmentsURL) st = (Ok output, st1, evs1) ->
        json_Unmarshal_instances output = Ok response ->
        GetActiveRoleAssignments st
        = (Ok (map activeRoleOfItem (Response.Value response)), st1,
           [EvAz (GET_args activeAssignmentsURL)]))
  /\ (forall item,
        let role := activeRoleOfItem item in
        EligibleRole.StartDateTime role = Time_zero
        /\ EligibleRole.EndDateTime role = None
        /\ EligibleRole.MaxDuration role = 0%Z
        /\ (Item.ExpandedProperties (Item.Properties item) = None ->
            EligibleRole.RoleName role = ""
            /\ EligibleRole.ScopeName role = ""
            /\ EligibleRole.ScopeType role = "")).
Proof.
  assert (forall items acc,
             foldl (fun roles item => roles ++ [activeRoleOfItem item]) acc items
             = acc ++ map activeRoleOfItem items) as Hfold.
  { induction items as [|item items IH]; intros acc; cbn.
    - by rewrite app_nil_r.
    - by rewrite IH, <- app_assoc. }
  split; [| split].
  - unfold GetActiveRoleAssignments. rewrite bind_run, runAzCommand_eq.
    cbn [fst snd]. destruct (run_err _); [done |].
    by destruct (json_Unmarshal_instances _).
  - intros output st1 evs1 response Hrun Hparse.
    pose proof (runAzCommand_events (GET_args activeAssignmentsURL) st) as Hev.
    unfold GetActiveRoleAssignments. rewrite bind_run.
    fold (GET_args activeAssignmentsURL). rewrite Hrun in *.
    cbn [fst snd] in *. subst evs1. rewrite Hparse. cbn [fst snd ret].
    by rewrite Hfold.
  - intros item role. subst role. rewrite activeRoleOfItem_eq. cbn.
    do 3 (split; [done |]). intros Hep. by rewrite Hep.
Qed.

(** *** Role selection, the interactive part *)

(** X14. [SelectRole] returns a role in two ways only: the list has that
    single element, or the list has at least two elements, the mode is
    interactive and the chooser ran once and ended, not cancelled, with
    that role selected. A cancelled chooser gives an error even when a
    selection was recorded. *)
Theorem SelectRole_success (roles : list EligibleRole.t) (nonInteractive : bool)
    (st : state) (role : EligibleRole.t) :
  (SelectRole roles nonInteractive st).1.1 = Ok role <->
  roles = [role]
  \/ ((2 <= length roles)%nat
      /\ nonInteractive = false
      /\ exists m,
          (tea_Run roles "Select role to activate" (world st)).1 = Ok m
          /\ selectorModel.cancelled m = false
          /\ selectorModel.selected m = Some role).
Proof.
  destruct roles as [|r1 [|r2 rs]]; cbn [SelectRole].
  - split; [done |]. intros [? | [Hlen _]]; [done | cbn in Hlen; lia].
  - rewrite bind_run. cbn [fst snd ret]. split.
    + intros [= ->]. by left.
    + intros [[= ->] | [Hlen _]]; [done | cbn in Hlen; lia].
  - destruct nonInteractive.
    + split; [done |]. intros [? | (_ & ? & _)]; done.
    + rewrite !bind_run. unfold lift_world, emit. cbn [fst snd].
      destruct (tea_Run _ _ _) as [[m|err] w']; cbn [fst snd].
      * destruct (selectorModel.cancelled m) eqn:Hc;
          [| destruct (selectorModel.selected m) as [sel|] eqn:Hs];
          cbn [fst snd ret].
        -- split; [done |].
           intros [? | (_ & _ & m' & [= <-] & Hc' & _)]; [done | congruence].
        -- split.
           ++ intros [= ->]. right. split; [cbn; lia |]. split; [done |].
              by exists m.
           ++ intros [? | (_ & _ & m' & [= <-] & _ & Hs')]; [done | congruence].
        -- split; [done |].
           intros [? | (_ & _ & m' & [= <-] & _ & Hs')]; [done | congruence].
      * split; [done |]. intros [? | (_ & _ & m' & ? & _)]; done.
Qed.

(** *** The order of the scope queries *)

Lemma getEligibleRolesAtScope_first (fuel : nat) (scope : string) (st : state)
    (r : result (list EligibleRole.t)) (st' : state) (evs : list event) :
  getEligibleRolesAtScope fuel scope st = (Some r, st', evs) ->
  exists rest, evs = EvAz (GET_args (scopeURL scope)) :: rest.
Proof.
  rewrite getEligibleRolesAtScope_eq. unfold fetchEligibleRoles.
  pose proof (scopeURL_nonempty scope) as Hurl.
  destruct fuel as [|fuel].
  - cbn. by rewrite bool_decide_eq_true_2.
  - rewrite fetchEligibleRoles_loop_S, bind_run, runAzCommand_events by done.
    intros [= _ _ <-]. by eexists.
Qed.

(** X15. The scopes are queried one after the other in a fixed order, the
    tenant first and then the subscriptions as they were listed: after the
    listing, the events of the aggregator are one run of requests per
    scope, in that order, each run starting with the request for the
    first page of its scope. *)
Theorem scope_queries_in_order (fuel : nat) (st : state)
    (subscriptions : list subscription.t) (st1 : state) (evs1 : list event)
    (rs : list (result (list EligibleRole.t))) (st2 : state)
    (evs2 : list event) :
  getSubscriptions st = (Ok subscriptions, st1, evs1) ->
  scopeQueries fuel (scopes_of subscriptions) st1 = (Some rs, st2, evs2) ->
  (GetEligibleRoleAssignments fuel st).2 = EvAz account_list_args :: evs2
  /\ exists runs,
      evs2 = concat runs
      /\ Forall2
           (fun scope run =>
              exists rest, run = EvAz (GET_args (scopeURL scope)) :: rest)
           (scopes_of subscriptions) runs.
Proof.
  intros Hsubs Hq. split.
  - rewrite GetEligibleRoleAssignments_eq.
    pose proof (getSubscriptions_events st) as Hev.
    rewrite Hsubs in *. cbn [fst snd] in *. subst evs1. by rewrite Hq.
  - clear Hsubs. revert st1 rs st2 evs2 Hq.
    induction (scopes_of subscriptions) as [|scope scopes IH];
      intros st1 rs st2 evs2 Hq.
    + injection Hq as _ _ <-. by exists [].
    + cbn [scopeQueries] in Hq. rewrite bind_run in Hq.
      destruct (getEligibleRolesAtScope fuel scope st1)
        as [[[r|] st'] e1] eqn:E; cbn [fst snd] in Hq; [| done].
      rewrite bind_run in Hq.
      destruct (scopeQueries fuel scopes st') as [[[rs'|] st''] e2] eqn:E';
        cbn [fst snd ret] in Hq; [| done].
      injection Hq as _ _ <-.
      destruct (IH _ _ _ _ E') as (runs & -> & Hruns).
      exists (e1 :: runs). split; [cbn; by rewrite app_nil_r |].
      constructor; [| done].
      by apply (getEligibleRolesAtScope_first _ _ _ _ _ _ E).
Qed.

End RunProperties.
Section CommandLineProperties.
Context `{Console}.

(** *** The spinner *)

Lemma total_run {A} (c : M A) (st : state) :
  total c st = (Some (c st).1.1, (c st).1.2, (c st).2).
Proof. unfold total. by destruct (c st) as [[a st'] evs]. Qed.

(** In non-interactive mode the terminal is not asked and the function
    is run as it is, after one line of output. *)
Lemma SpinWithResult_nonInteractive {A} (title : string)
    (fn : M (option (result A))) (st : state) :
  SpinWithResult title fn true st
  = ((fn st).1.1, (fn st).1.2, EvStdout (title +:+ "..." +:+ nl) :: (fn st).2).
Proof.
  unfold SpinWithResult. rewrite bind_run. cbn [ret fst snd].
  rewrite bind_run. by cbn.
Qed.

Lemma az_calls_cons_stdout (text : string) (evs : list event) :
  az_calls (EvStdout text :: evs) = az_calls evs.
Proof. reflexivity. Qed.

Lemma chooser_runs_app (a b : list event) :
  chooser_runs (a ++ b) = chooser_runs a ++ chooser_runs b.
Proof. apply filter_app. Qed.

(** *** The [activate] command without interaction *)

(** X16. In non-interactive mode with exactly one eligible role, the
    command activates that role with the values of its flags: the request
    has the flag's duration, ticket fields and reason (no prompt, also for
    an empty reason). It succeeds exactly when [ActivateRole] does, and
    beyond the [az] invocations of the earlier steps it makes those of
    [ActivateRole] only. *)
Theorem runActivate_single_role (fuel : nat) (flags : Flags.t) (st : state)
    (st1 : state) (evs1 : list event) (user : UserInfo.t) (st2 : state)
    (evs2 : list event) (role : EligibleRole.t) (st3 : state)
    (evs3 : list event) :
  Flags.nonInteractive flags = true ->
  checkPrerequisites (set_Verbose (Flags.verbose flags) st).1.2
  = (Ok tt, st1, evs1) ->
  GetCurrentUser st1 = (Ok user, st2, evs2) ->
  GetEligibleRoleAssignments fuel st2 = (Some (Ok [role]), st3, evs3) ->
  let req :=
    {| ActivationRequest.Role := role;
       ActivationRequest.Duration := Flags.duration flags;
       ActivationRequest.Justification := Flags.reason flags;
       ActivationRequest.TicketNumber := Flags.ticketNum flags;
       ActivationRequest.TicketSystem := Flags.ticketSys flags |} in
  let activation := ActivateRole req st3 in
  (runActivate fuel flags st).1.1
  = Some (match activation.1.1 with
          | Ok _ => Ok tt
          | Err err => Err ("failed to activate role: " +:+ err)
          end)
  /\ az_calls (runActivate fuel flags st).2
     = az_calls evs1 ++ az_calls evs2 ++ az_calls evs3 ++ az_calls activation.2.
Proof.
  intros Hni Hpre Huser Hroles req activation.
  unfold runActivate. rewrite Hni.
  rewrite bind_run. cbn [fst snd]. rewrite bind_run, Hpre. cbn [fst snd].
  rewrite bind_run, SpinWithResult_nonInteractive, total_run, Huser.
  cbn [fst snd].
  rewrite bind_run. cbn [emit fst snd].
  rewrite bind_run, SpinWithResult_nonInteractive, Hroles. cbn [fst snd].
  rewrite bind_run. cbn [emit fst snd length].
  rewrite bool_decide_eq_false_2 by done.
  rewrite bind_run.
  change (SelectRole [role] true st3)
    with (bind (emit (EvStdout
                        (SuccessStyle_Render
                           ("Auto-selecting the only eligible role: "
                            +:+ EligibleRole.RoleName role +:+ " on "
                            +:+ EligibleRole.ScopeName role) +:+ nl)))
            (fun _ => ret (Ok role)) st3).
  rewrite bind_run. cbn [emit ret fst snd negb].
  rewrite andb_false_r, bind_run. cbn [ret fst snd].
  rewrite bind_run. unfold SpinWithAction.
  rewrite SpinWithResult_nonInteractive, total_run. cbn [fst snd].
  fold req. fold activation.
  destruct activation as [[[[]|err] st4] evs4]; cbn [fst snd].
  - rewrite bind_run. cbn [emit ret fst snd]. split; [done |].
    rewrite !az_calls_app. cbn. by rewrite !app_nil_r.
  - cbn [ret fst snd]. split; [done |].
    rewrite !az_calls_app. cbn. by rewrite !app_nil_r.
Qed.

(** X17. In non-interactive mode, when the number of eligible roles is
    not one, nothing is activated: after the listing there is no further
    [az] invocation. Without any eligible role the command ends in
    success; with several it ends in the error of the role selection. *)
Theorem runActivate_nothing_to_select (fuel : nat) (flags : Flags.t)
    (st : state) (st1 : state) (evs1 : list event) (user : UserInfo.t)
    (st2 : state) (evs2 : list event) (roles : list EligibleRole.t)
    (st3 : state) (evs3 : list event) :
  Flags.nonInteractive flags = true ->
  checkPrerequisites (set_Verbose (Flags.verbose flags) st).1.2
  = (Ok tt, st1, evs1) ->
  GetCurrentUser st1 = (Ok user, st2, evs2) ->
  GetEligibleRoleAssignments fuel st2 = (Some (Ok roles), st3, evs3) ->
  length roles <> 1%nat ->
  (runActivate fuel flags st).1.1
  = Some (if bool_decide (roles = []) then Ok tt
          else Err ("role selection failed: "
                    +:+ "multiple roles available but running in non-interactive mode"))
  /\ (runActivate fuel flags st).1.2 = st3
  /\ az_calls (runActivate fuel flags st).2
     = az_calls evs1 ++ az_calls evs2 ++ az_calls evs3.
Proof.
  intros Hni Hpre Huser Hroles Hlen.
  unfold runActivate. rewrite Hni.
  rewrite bind_run. cbn [fst snd]. rewrite bind_run, Hpre. cbn [fst snd].
  rewrite bind_run, SpinWithResult_nonInteractive, total_run, Huser.
  cbn [fst snd].
  rewrite bind_run. cbn [emit fst snd].
  rewrite bind_run, SpinWithResult_nonInteractive, Hroles. cbn [fst snd].
  rewrite bind_run. cbn [emit fst snd].
  destruct roles as [|r1 [|r2 rs]]; [| done |].
  - rewrite bool_decide_eq_true_2 by done. rewrite bind_run.
    cbn [emit ret fst snd]. rewrite bool_decide_eq_true_2 by done.
    split; [done |]. split; [done |].
    rewrite !az_calls_app. cbn. by rewrite !app_nil_r.
  - rewrite bool_decide_eq_false_2 by done. rewrite bind_run.
    cbn [SelectRole ret fst snd]. rewrite bool_decide_eq_false_2 by done.
    split; [done |]. split; [done |].
    rewrite !az_calls_app. cbn. by rewrite !app_nil_r.
Qed.

Lemma checkPrerequisites_run (st : state) :
  checkPrerequisites st =
  let found := exec_LookPath_az (world st) in
  if found.1 then
    let probe := exec_az ["account"; "show"] found.2 in
    (match run_err probe.1 with
     | None => Ok tt
     | Some _ =>
         Err "You are not logged in to Azure CLI. Please run 'az login' first"
     end,
     mkState probe.2 (Verbose st), [EvAz ["account"; "show"]])
  else
    (Err "Azure CLI (az) is not installed. Please install it from https://docs.microsoft.com/en-us/cli/azure/install-azure-cli",
     mkState found.2 (Verbose st), []).
Proof.
  unfold checkPrerequisites, IsAzCliInstalled, IsAuthenticated.
  rewrite bind_run. unfold lift_world.
  destruct (exec_LookPath_az (world st)) as [[|] w1]; cbn [fst snd negb ret];
    [| done].
  rewrite bind_run, bind_run, runAzCommand_eq. cbn [fst snd world Verbose].
  by destruct (run_err _).
Qed.

(** X18. When a prerequisite is missing the command returns the error of
    the check and does nothing else. Without the [az] executable it makes
    no [az] invocation at all; with it, the only one is [az account show],
    and any failure of that one is reported as not being logged in. *)
Theorem runActivate_prerequisites (fuel : nat) (flags : Flags.t) (st : state)
    (err : string) :
  let st0 := (set_Verbose (Flags.verbose flags) st).1.2 in
  (checkPrerequisites st0).1.1 = Err err ->
  runActivate fuel flags st
  = (Some (Err err), (checkPrerequisites st0).1.2, (checkPrerequisites st0).2)
  /\ (if (exec_LookPath_az (world st)).1 then
        (checkPrerequisites st0).2 = [EvAz ["account"; "show"]]
        /\ err = "You are not logged in to Azure CLI. Please run 'az login' first"
      else (checkPrerequisites st0).2 = []).
Proof.
  intros st0 Herr. split.
  - unfold runActivate. rewrite bind_run. fold st0. cbn [fst snd].
    rewrite bind_run. destruct (checkPrerequisites st0) as [[r st1] evs1].
    cbn [fst snd] in *. subst r. cbn [ret fst snd]. by rewrite app_nil_r.
  - rewrite checkPrerequisites_run in *. subst st0. cbn [set_Verbose fst snd world] in *.
    destruct (exec_LookPath_az (world st)) as [[|] w1]; cbn [fst snd] in *;
      [| done].
    split; [done |]. destruct (run_err _); [| done]. by injection Herr.
Qed.

(** *** Who is signed in *)

(** X19. [GetCurrentUser] asks the directory first and falls back to the
    account when that fails or its answer does not parse: it then returns
    what [getCurrentUserFromAccount] returns, error included, so the error
    of the directory query is never reported. The fallback user has the
    account name, the [user.name] decoded from the output of
    [az account show], as display name and as principal name, and neither
    object id nor mail. At most two [az] invocations are made. *)
Theorem GetCurrentUser_fallback (st : state) :
  let args := ["ad"; "signed-in-user"; "show"; "--output"; "json"] in
  let primary := runAzCommand args st in
  (forall output user,
      primary.1.1 = Ok output ->
      json_Unmarshal_UserInfo output = Ok user ->
      GetCurrentUser st = (Ok user, primary.1.2, [EvAz args]))
  /\ (match primary.1.1 with
      | Err _ => True
      | Ok output => is_Err (json_Unmarshal_UserInfo output) = true
      end ->
      (GetCurrentUser st).1.1 = (getCurrentUserFromAccount primary.1.2).1.1
      /\ az_calls (GetCurrentUser st).2
         = [args; ["account"; "show"; "--output"; "json"]])
  /\ (forall st' user,
        (getCurrentUserFromAccount st').1.1 = Ok user ->
        UserInfo.ObjectID user = ""
        /\ UserInfo.Mail user = ""
        /\ UserInfo.DisplayName user = UserInfo.UPN user
        /\ exists output name,
            (runAzCommand ["account"; "show"; "--output"; "json"] st').1.1
            = Ok output
            /\ json_Unmarshal_account output = Ok name
            /\ user = {| UserInfo.DisplayName := name;
                         UserInfo.ObjectID := "";
                         UserInfo.Mail := "";
                         UserInfo.UPN := name |}).
Proof.
  intros args primary.
  assert (forall st', (getCurrentUserFromAccount st').2
                      = [EvAz ["account"; "show"; "--output"; "json"]]) as Hfb.
  { intros st'. unfold getCurrentUserFromAccount.
    rewrite bind_run, runAzCommand_eq. cbn [fst snd].
    destruct (run_err _); [done |]. by destruct (json_Unmarshal_account _). }
  pose proof (runAzCommand_events args st) as Hev. fold primary in Hev.
  split; [| split].
  - intros output user Hout Hparse. unfold GetCurrentUser.
    rewrite bind_run. fold args primary. rewrite Hout, Hparse, Hev.
    by cbn.
  - intros Hfail. unfold GetCurrentUser. rewrite bind_run. fold args primary.
    rewrite Hev.
    destruct primary.1.1 as [output|e]; cbn [fst snd].
    + destruct (json_Unmarshal_UserInfo output); [done |].
      split; [done |]. cbn. by rewrite Hfb.
    + split; [done |]. cbn. by rewrite Hfb.
  - intros st' user. unfold getCurrentUserFromAccount.
    rewrite bind_run.
    destruct (runAzCommand _ st') as [[[output|err] st''] evs]; cbn [fst snd];
      [| done].
    destruct (json_Unmarshal_account output) as [name|err] eqn:Hname; [| done].
    cbn. intros [= <-]. do 3 (split; [done |]). by exists output, name.
Qed.

(** *** The tables *)

Lemma truncate_column (s : string) (max : Z) :
  (3 <= max)%Z -> is_Some (truncate s max).
Proof.
  intros Hmax. unfold truncate. case_bool_decide; [| done].
  by rewrite bool_decide_eq_true_2 by lia.
Qed.

Lemma eligibleRow_Some (role : EligibleRole.t) : is_Some (eligibleRow role).
Proof.
  unfold eligibleRow.
  destruct (truncate_column (EligibleRole.RoleName role) 28) as [a ->]; [lia |].
  destruct (truncate_column (EligibleRole.ScopeName role) 38) as [b ->]; [lia |].
  done.
Qed.

Lemma activeRow_Some (role : EligibleRole.t) : is_Some (activeRow role).
Proof.
  unfold activeRow.
  destruct (truncate_column (EligibleRole.RoleName role) 28) as [a ->]; [lia |].
  destruct (truncate_column (EligibleRole.ScopeName role) 38) as [b ->]; [lia |].
  done.
Qed.

Lemma rows_Some (row : EligibleRole.t -> option string)
    (roles : list EligibleRole.t) (b : string) :
  (forall role, is_Some (row role)) ->
  is_Some (foldl (fun b role => b ← b; r ← row role; Some (b +:+ r))
             (Some b) roles).
Proof.
  intros Hrow. revert b. induction roles as [|role roles IH]; intros b.
  - done.
  - cbn [foldl]. destruct (Hrow role) as [r ->]. apply IH.
Qed.

(** X20. The tables never panic: the columns are cut at 28 and 38 bytes,
    widths for which [truncate] has no negative slice bound, so both
    renderings return a string for every list of roles. In the table of
    active roles a role without a status is shown as an ["Active"] one:
    the two cannot be told apart in the output. *)
Theorem tables_render (roles rest : list EligibleRole.t) (r : EligibleRole.t) :
  is_Some (RenderEligibleRolesTable roles)
  /\ is_Some (RenderActiveRolesTable roles)
  /\ RenderActiveRolesTable (roles ++ with_Status "" r :: rest)
     = RenderActiveRolesTable (roles ++ with_Status "Active" r :: rest).
Proof.
  split; [apply rows_Some, eligibleRow_Some |].
  split; [apply rows_Some, activeRow_Some |].
  unfold RenderActiveRolesTable. cbv zeta.
  rewrite !foldl_app. cbn [foldl]. done.
Qed.

End CommandLineProperties.
(** ** These properties at work in the small worlds *)

Section PathWitnesses.

Lemma extractLastSegment_suffix_witness :
  free_of "/" "reader" /\ extractLastSegment "reader" = "reader".
Proof.
  assert (free_of "/" "reader") as Hfree by (apply free_of_Contains; reflexivity).
  split; [exact Hfree |].
  apply (proj1 (proj2 (proj2 (extractLastSegment_suffix "reader"))) Hfree).
Defined.

Lemma extractScopeName_unchanged_witness :
  extractScopeName "/providers/Microsoft.Management/subscriptions"
  = "/providers/Microsoft.Management/subscriptions".
Proof.
  apply (extractScopeName_unchanged
           "/providers/Microsoft.Management/subscriptions").
  apply (bool_decide_unpack _). vm_compute. exact I.
Defined.

Lemma resourceGroup_scope_named_by_subscription_witness :
  extractScopeName "/subscriptions/A/resourceGroups/rg" = "A"
  /\ detectScopeType "/subscriptions/A/resourceGroups/rg" = "resourceGroup".
Proof.
  apply (resourceGroup_scope_named_by_subscription "A" "rg").
  apply free_of_Contains. reflexivity.
Defined.

Lemma deduplicate_fixpoint_witness :
  deduplicate (map (eligibleRoleOfItem (H := Demo.env))
                 [Demo.itemT; Demo.itemA1])
  = map (eligibleRoleOfItem (H := Demo.env)) [Demo.itemT; Demo.itemA1].
Proof.
  apply (proj1 (deduplicate_fixpoint _)).
  apply (bool_decide_unpack _). vm_compute. exact I.
Defined.

Lemma truncate_fits_witness :
  exists r,
    truncate "Storage Blob Data Contributor (preview)" 28 = Some r
    /\ (Z.of_nat (String.length r) <= 28)%Z.
Proof.
  destruct (proj1 (truncate_fits "Storage Blob Data Contributor (preview)" 28))
    as (r & Hr & Hlen & _); [lia |].
  by exists r.
Defined.

End PathWitnesses.

Section RunWitnesses.
Import Scenario.

Lemma enumeration_failure_stops_witness :
  let E := offline in
  (getSubscriptions (start E 0%nat)).1.1
  = Err ("az command failed: exit status 1" +:+ nl
         +:+ "stderr: no more answers")
  /\ (GetEligibleRoleAssignments 3 (start E 0%nat)).2
     = [EvAz account_list_args].
Proof.
  intros E. split; [reflexivity |].
  by rewrite (enumeration_failure_stops (H := E) 3 (start E 0%nat) _ eq_refl).
Defined.

Lemma fetch_failure_discards_rows_witness :
  let E := one_page in
  fetchEligibleRoles 5 "https://management.azure.com/first" (start E 0%nat)
  = (Some (Err ("az command failed: exit status 1" +:+ nl
                +:+ "stderr: no more answers")),
     start E 2%nat,
     [EvAz (GET_args "https://management.azure.com/first");
      EvAz (GET_args "https://management.azure.com/next")]).
Proof.
  intros E.
  assert (pages_to (H := E) "https://management.azure.com/first"
            (start E 0%nat)
            [Response.mk [Demo.itemA1] "https://management.azure.com/next"]
            "https://management.azure.com/next" (start E 1%nat)
            [EvAz (GET_args "https://management.azure.com/first")]) as Hchain.
  { eapply pages_to_next; [discriminate | reflexivity | reflexivity |].
    apply pages_to_here. }
  apply (proj1 (fetch_failure_discards_rows (H := E) 5 _ _ _ _ _ _ _ Hchain
                  ltac:(discriminate) ltac:(cbn; lia) eq_refl)).
Defined.

Lemma ActivateRole_without_principal_witness :
  let E := offline in
  az_calls (ActivateRole Demo.request (start E 0%nat)).2 = [whoami_args].
Proof.
  intros E.
  apply (ActivateRole_without_principal (H := E) Demo.request (start E 0%nat)
           "exit status 1" eq_refl).
Defined.

Lemma ActivateRole_submission_result_witness :
  (ActivateRole (H := Demo.env) Demo.request Demo.st0).1.1 = Ok tt.
Proof.
  apply (ActivateRole_submission_result (H := Demo.env) Demo.request Demo.st0
           "user-1" (Demo.after 2) [EvAz whoami_args] "{...}" eq_refl eq_refl).
Defined.

Lemma GetActiveRoleAssignments_single_page_witness :
  let E := one_page in
  GetActiveRoleAssignments (start E 0%nat)
  = (Ok [activeRoleOfItem Demo.itemA1], start E 1%nat,
     [EvAz (GET_args activeAssignmentsURL)]).
Proof.
  intros E.
  apply (proj1 (proj2 (GetActiveRoleAssignments_single_page (H := E)
                         (start E 0%nat)))
           "page 1" (start E 1%nat) [EvAz (GET_args activeAssignmentsURL)]
           (Response.mk [Demo.itemA1] "https://management.azure.com/next")
           eq_refl eq_refl).
Defined.

Lemma scope_queries_in_order_witness :
  exists evs2,
    (GetEligibleRoleAssignments (H := Demo.env) 3 Demo.st0).2
    = EvAz account_list_args :: evs2
    /\ length evs2 = 6%nat.
Proof.
  pose proof (proj1 (scope_queries_in_order (H := Demo.env) 3 Demo.st0
                       _ _ _ _ _ _ eq_refl eq_refl)) as Horder.
  eexists. split; [exact Horder | reflexivity].
Defined.

Lemma runActivate_single_role_witness :
  let E := activation [Demo.itemT] in
  let C := DemoConsole.console E in
  (runActivate 3 flags (start E 0%nat)).1.1 = Some (Ok tt)
  /\ last (az_calls (runActivate 3 flags (start E 0%nat)).2)
     = Some (PUT_args
               (activationURL "/subscriptions/C" "uuid-4") "{...}").
Proof.
  intros E C.
  destruct (runActivate_single_role (H := E) (H0 := C) 3 flags (start E 0%nat)
              (start E 1%nat) [EvAz ["account"; "show"]]
              (UserInfo.mk "Ada" "user-1" "" "ada@example.org")
              (start E 2%nat)
              [EvAz ["ad"; "signed-in-user"; "show"; "--output"; "json"]]
              (eligibleRoleOfItem Demo.itemT) (start E 4%nat)
              [EvAz account_list_args; EvAz (GET_args (scopeURL ""))]
              eq_refl eq_refl eq_refl eq_refl) as [Hres Hcalls].
  split; [rewrite Hres | rewrite Hcalls]; reflexivity.
Defined.

Lemma runActivate_nothing_to_select_witness :
  let E := activation [Demo.itemT; Demo.itemA1] in
  let C := DemoConsole.console E in
  (runActivate 3 flags (start E 0%nat)).1.1
  = Some (Err ("role selection failed: "
               +:+ "multiple roles available but running in non-interactive mode"))
  /\ length (az_calls (runActivate 3 flags (start E 0%nat)).2) = 4%nat.
Proof.
  intros E C.
  destruct (runActivate_nothing_to_select (H := E) (H0 := C) 3 flags
              (start E 0%nat)
              (start E 1%nat) [EvAz ["account"; "show"]]
              (UserInfo.mk "Ada" "user-1" "" "ada@example.org")
              (start E 2%nat)
              [EvAz ["ad"; "signed-in-user"; "show"; "--output"; "json"]]
              (map eligibleRoleOfItem [Demo.itemT; Demo.itemA1])
              (start E 4%nat)
              [EvAz account_list_args; EvAz (GET_args (scopeURL ""))]
              eq_refl eq_refl eq_refl eq_refl ltac:(discriminate))
    as (Hres & _ & Hcalls).
  split; [rewrite Hres | rewrite Hcalls]; reflexivity.
Defined.

Lemma runActivate_prerequisites_witness :
  let E := offline in
  let C := DemoConsole.console E in
  runActivate 3 flags (start E 0%nat)
  = (Some (Err "You are not logged in to Azure CLI. Please run 'az login' first"),
     start E 1%nat, [EvAz ["account"; "show"]]).
Proof.
  intros E C.
  apply (proj1 (runActivate_prerequisites (H := E) (H0 := C) 3 flags
                  (start E 0%nat) _ eq_refl)).
Defined.

Lemma GetCurrentUser_fallback_witness :
  let E := no_directory in
  let C := DemoConsole.console E in
  (GetCurrentUser (start E 0%nat)).1.1
  = Ok (UserInfo.mk "ada@example.org" "" "" "ada@example.org")
  /\ az_calls (GetCurrentUser (start E 0%nat)).2
     = [["ad"; "signed-in-user"; "show"; "--output"; "json"];
        ["account"; "show"; "--output"; "json"]].
Proof.
  intros E C.
  destruct (proj1 (proj2 (GetCurrentUser_fallback (H := E) (H0 := C)
                            (start E 0%nat))) I) as [Hres Hcalls].
  split; [rewrite Hres; reflexivity | exact Hcalls].
Defined.

End RunWitnesses.
